(** * LocatorMultiSystem: the location coordinator and the tracker view

    A shallow embedding of
      - [src/Locator/services/LocationService.ts] (class [LocationService]),
      - [src/Locator/components/LocationTracker.tsx] (component
        [LocationTracker] and its two display formatters),
    together with the few facts about their collaborators that the code
    relies on: the expo location provider, the task manager, the JavaScript
    number type and React's hook discipline.

    Conventions.
      - A JavaScript [number] is an IEEE binary64 value: [PrimFloat.float].
      - A JavaScript string is the [string] of its UTF-8 bytes.
      - [async] methods are run to completion: every [await] returns the
        platform's answer before the next statement runs, and no other code
        is interleaved at the suspension point.
      - A platform call either returns or throws; which one is decided by the
        fault schedule carried by the platform state, so a statement over
        every world covers every pattern of platform failures.
      - Left out: the rendered element tree and its style sheet, and
        [getInstance], which hands out the one [LocationService] object
        that [service] stands for. *)

From Stdlib Require Import ZArith List String Ascii Bool Lia.
From Stdlib Require Import DecimalString.
From Stdlib Require Import Floats.PrimFloat Floats.FloatOps Floats.SpecFloat.
Import ListNotations.

Local Open Scope string_scope.
Local Open Scope Z_scope.

(** ** Completions: a JavaScript computation returns or throws *)

Inductive Error : Type :=
| RangeError                       (* thrown by the runtime itself *)
| PlatformError (code : string).   (* a rejection of the location provider *)

Inductive Completion (A : Type) : Type :=
| Normal (a : A)
| Throw (e : Error).

Arguments Normal {A} a.
Arguments Throw {A} e.

Definition threw {A} (c : Completion A) : bool :=
  match c with Normal _ => false | Throw _ => true end.

(** ** Numbers: [Number.prototype.toFixed] on binary64 values *)

Module JSNumber.

Definition number := float.

(** The decimal digits of a non-negative integer, ["0"] for zero. *)
Definition digits (n : Z) : string :=
  NilZero.string_of_uint (N.to_uint (Z.to_N n)).

Fixpoint zeros (k : nat) : string :=
  match k with
  | O => ""
  | S k' => String "0" (zeros k')
  end.

(** The integer [n] for which [n / 10^f - m * 2^e] is as close to zero as
    possible, the larger one when two are equally close. *)
Definition nearest_scaled (m : positive) (e : Z) (f : nat) : Z :=
  let num := Z.pos m * 10 ^ Z.of_nat f in
  if 0 <=? e then num * 2 ^ e
  else let den := 2 ^ (- e) in (2 * num + den) / (2 * den).

(** [m * 2^e >= 10^21], decided on integers. *)
Definition at_least_1e21 (m : positive) (e : Z) : bool :=
  if 0 <=? e then 10 ^ 21 <=? Z.pos m * 2 ^ e
  else 10 ^ 21 * 2 ^ (- e) <=? Z.pos m.

(** Steps 8-10 of [toFixed]: lay out the digits of [n] with [f] of them
    after the point. *)
Definition place_point (n : Z) (f : nat) : string :=
  let m := digits n in
  match f with
  | O => m
  | S _ =>
      let k := String.length m in
      let m := if Nat.leb k f then zeros (f + 1 - k) ++ m else m in
      let k := String.length m in
      substring 0 (k - f) m ++ "." ++ substring (k - f) f m
  end.

(** [ToIntegerOrInfinity]: what the runtime makes of a number given where
    an integer is expected. [NaN] and the zeros count as 0, the infinities
    stay infinite, any other value is truncated toward zero. *)
Inductive IntegerOrInfinity : Type :=
| Finite (z : Z)
| PlusInfinity
| MinusInfinity.

Definition ToIntegerOrInfinity (x : number) : IntegerOrInfinity :=
  match Prim2SF x with
  | S754_nan => Finite 0
  | S754_zero _ => Finite 0
  | S754_infinity false => PlusInfinity
  | S754_infinity true => MinusInfinity
  | S754_finite s m e =>
      let magnitude :=
        if 0 <=? e then Z.pos m * 2 ^ e else Z.pos m / 2 ^ (- e) in
      Finite (if s then - magnitude else magnitude)
  end.

Section ToFixed.

(** [Number::toString] of the runtime. [toFixed] falls back to it for
    magnitudes of [1e21] and above, where it prints in exponent
    notation; the component never formats such values in the cases
    studied here, so it is left abstract. *)
Variable Number_toString : number -> string.

Definition toFixed (x : number) (fractionDigits : Z) : Completion string :=
  if (fractionDigits <? 0) || (100 <? fractionDigits) then Throw RangeError
  else
    let f := Z.to_nat fractionDigits in
    match Prim2SF x with
    | S754_nan => Normal "NaN"
    | S754_infinity false => Normal "Infinity"
    | S754_infinity true => Normal "-Infinity"
    | S754_zero _ => Normal (place_point 0 f)
    | S754_finite s m e =>
        let sign := if s then "-" else "" in
        if at_least_1e21 m e
        then Normal (sign ++ Number_toString (abs x))
        else Normal (sign ++ place_point (nearest_scaled m e f) f)
    end.

(** [x.toFixed(fractionDigits)] as a program calls it, with a number for
    the digits: the number is first converted with [ToIntegerOrInfinity]
    (steps 2 to 4 of the method), and an infinite count is a
    [RangeError]. *)
Definition Number_prototype_toFixed (x : number) (fractionDigits : number)
  : Completion string :=
  match ToIntegerOrInfinity fractionDigits with
  | Finite f => toFixed x f
  | PlusInfinity | MinusInfinity => Throw RangeError
  end.

End ToFixed.

End JSNumber.

Import JSNumber.

(** ** The data model *)

(** [interface LocationData] of both source files. *)
Record LocationData : Type := mkLocationData {
  latitude : number;
  longitude : number;
  accuracy : option number;      (* [number | null] *)
  timestamp : number
}.

(** What the provider hands to a position callback: the fields of expo's
    [LocationObject] that the code reads. *)
Record Coords : Type := mkCoords {
  coords_latitude : number;
  coords_longitude : number;
  coords_accuracy : option number
}.

Record LocationObject : Type := mkLocationObject {
  coords : Coords;
  location_timestamp : number
}.

(** The object literal built in five places of the source from a
    [LocationObject]. *)
Definition toLocationData (location : LocationObject) : LocationData :=
  {| latitude := coords_latitude (coords location);
     longitude := coords_longitude (coords location);
     accuracy := coords_accuracy (coords location);
     timestamp := location_timestamp location |}.

(** ** Display formatters of [LocationTracker] *)

Module Format.

Section WithRuntime.

Variable Number_toString : number -> string.

(** [formatCoordinate(value, precision = 6)]; both parameters are
    JavaScript numbers, the second one optional. *)
Definition formatCoordinate (value : number) (precision : option number)
  : Completion string :=
  let precision := match precision with Some p => p | None => 6%float end in
  Number_prototype_toFixed Number_toString value precision.

(** The literal that opens the template string of [formatAccuracy], byte
    for byte as it stands in the source file. *)
Definition accuracy_prefix : string := "Â±".

(** [formatAccuracy(accuracy)] *)
Definition formatAccuracy (accuracy : option number) : Completion string :=
  match accuracy with
  | None => Normal "Unknown"
  | Some a =>
      match toFixed Number_toString a 1 with
      | Normal digits => Normal (accuracy_prefix ++ digits ++ "m")
      | Throw e => Throw e
      end
  end.

End WithRuntime.

End Format.

(** ** The platform: location provider and task manager *)

Inductive PermissionStatus : Type := granted | denied | undetermined.

Definition is_granted (status : PermissionStatus) : bool :=
  match status with granted => true | _ => false end.

(** [Location.Accuracy] *)
Inductive Accuracy : Type :=
| Lowest | Low | Balanced | High | Highest | BestForNavigation.

Record WatchOptions : Type := mkWatchOptions {
  watch_accuracy : Accuracy;
  watch_timeInterval : Z;        (* milliseconds *)
  watch_distanceInterval : Z     (* meters *)
}.

Record ForegroundServiceNotice : Type := mkNotice {
  notificationTitle : string;
  notificationBody : string;
  notificationColor : string
}.

Record TaskOptions : Type := mkTaskOptions {
  task_accuracy : Accuracy;
  task_timeInterval : Z;
  task_distanceInterval : Z;
  deferredUpdatesInterval : Z;
  foregroundService : ForegroundServiceNotice
}.

(** A subscription handle, and the closure that a watch delivers to: the
    arrow function written in [LocationService.startTracking] or the one
    written in the view's start handler. *)
Definition Handle := nat.

Inductive Listener : Type := ServiceListener | TrackerListener.

Record Watch : Type := mkWatch {
  watch_handle : Handle;
  watch_listener : Listener;
  watch_options : WatchOptions
}.

Record Platform : Type := mkPlatform {
  foregroundAnswer : PermissionStatus;  (* what a foreground request yields *)
  backgroundAnswer : PermissionStatus;  (* what a background request yields *)
  devicePosition : LocationObject;      (* what a one-shot fetch yields *)
  localeTime : string;                  (* [new Date().toLocaleTimeString()] *)
  watches : list Watch;                 (* the open foreground watches *)
  nextHandle : Handle;
  locationTasks : list (string * TaskOptions);  (* running background updates *)
  faults : list (option Error)          (* outcome of the coming platform calls:
                                           [Some e] rejects with [e] *)
}.

Definition set_watches (ws : list Watch) (p : Platform) : Platform :=
  mkPlatform (foregroundAnswer p) (backgroundAnswer p) (devicePosition p)
    (localeTime p) ws (nextHandle p) (locationTasks p) (faults p).

Definition set_nextHandle (h : Handle) (p : Platform) : Platform :=
  mkPlatform (foregroundAnswer p) (backgroundAnswer p) (devicePosition p)
    (localeTime p) (watches p) h (locationTasks p) (faults p).

Definition set_locationTasks (ts : list (string * TaskOptions)) (p : Platform)
  : Platform :=
  mkPlatform (foregroundAnswer p) (backgroundAnswer p) (devicePosition p)
    (localeTime p) (watches p) (nextHandle p) ts (faults p).

Definition set_faults (fs : list (option Error)) (p : Platform) : Platform :=
  mkPlatform (foregroundAnswer p) (backgroundAnswer p) (devicePosition p)
    (localeTime p) (watches p) (nextHandle p) (locationTasks p) fs.

(** The handles of the open watches that deliver to [l]. *)
Definition handles_of (l : Listener) (p : Platform) : list Handle :=
  map watch_handle
    (filter (fun w => match watch_listener w, l with
                      | ServiceListener, ServiceListener => true
                      | TrackerListener, TrackerListener => true
                      | _, _ => false
                      end) (watches p)).

Definition is_open (h : Handle) (p : Platform) : bool :=
  existsb (fun w => Nat.eqb (watch_handle w) h) (watches p).

Definition task_running (name : string) (p : Platform) : bool :=
  existsb (fun t => String.eqb (fst t) name) (locationTasks p).

(** ** The two stateful objects of the program *)

(** The caller's [onLocationUpdate] function, known by its identity; calling
    it is recorded in the world. *)
Definition Callback := nat.

(** The private fields of [class LocationService]. *)
Record LocationService : Type := mkLocationService {
  isTracking : bool;
  currentLocation : option LocationData;
  locationSubscription : option Handle;
  onLocationUpdate : option Callback
}.

(** [new LocationService()]: the field initialisers. *)
Definition newLocationService : LocationService :=
  {| isTracking := false;
     currentLocation := None;
     locationSubscription := None;
     onLocationUpdate := None |}.

Module TrackerState.

(** The five [useState] cells of [LocationTracker], in source order. *)
Record t : Type := mk {
  isTracking : bool;
  currentLocation : option LocationData;
  hasPermission : option bool;          (* [boolean | null] *)
  lastUpdateTime : string;
  watchSubscription : option Handle
}.

(** The initial values given to [useState]. *)
Definition initial : t :=
  {| isTracking := false;
     currentLocation := None;
     hasPermission := None;
     lastUpdateTime := "";
     watchSubscription := None |}.

End TrackerState.

(** A [LocationTracker] instance as React keeps it. [hooks] holds the current
    value of each state cell; a render binds these values to the component's
    constants, and the handlers of that render read the constants.
    [effectScope] is the render whose constants the mounted effect closed
    over: the effect has an empty dependency list, so it is installed by the
    first render only and its cleanup keeps that render's constants. *)
Record Component : Type := mkComponent {
  mounted : bool;
  hooks : TrackerState.t;
  effectScope : TrackerState.t
}.

Inductive Level : Type := log | error.

Record World : Type := mkWorld {
  platform : Platform;
  service : LocationService;               (* the singleton, [this] *)
  tracker : Component;
  invocations : list (Callback * LocationData);  (* calls of the caller's
                                                    callback, oldest first *)
  console : list (Level * string);         (* oldest first *)
  alerts : list string                     (* titles of the dialogs shown *)
}.

Definition set_platform (p : Platform) (w : World) : World :=
  mkWorld p (service w) (tracker w) (invocations w) (console w) (alerts w).

Definition set_service (s : LocationService) (w : World) : World :=
  mkWorld (platform w) s (tracker w) (invocations w) (console w) (alerts w).

Definition set_tracker (c : Component) (w : World) : World :=
  mkWorld (platform w) (service w) c (invocations w) (console w) (alerts w).

Definition set_invocations (l : list (Callback * LocationData)) (w : World)
  : World :=
  mkWorld (platform w) (service w) (tracker w) l (console w) (alerts w).

Definition set_console (l : list (Level * string)) (w : World) : World :=
  mkWorld (platform w) (service w) (tracker w) (invocations w) l (alerts w).

Definition set_alerts (l : list string) (w : World) : World :=
  mkWorld (platform w) (service w) (tracker w) (invocations w) (console w) l.

(** ** The monad of JavaScript statements: state and exceptions *)

Definition M (A : Type) : Type := World -> Completion A * World.

Definition ret {A} (a : A) : M A := fun w => (Normal a, w).

Definition throw {A} (e : Error) : M A := fun w => (Throw e, w).

Definition bind {A B} (c : M A) (k : A -> M B) : M B :=
  fun w =>
    match c w with
    | (Normal a, w') => k a w'
    | (Throw e, w') => (Throw e, w')
    end.

(** [try { body } catch (e) { handler }] *)
Definition try_catch {A} (body : M A) (handler : Error -> M A) : M A :=
  fun w =>
    match body w with
    | (Normal a, w') => (Normal a, w')
    | (Throw e, w') => handler e w'
    end.

Definition modify (f : World -> World) : M unit := fun w => (Normal tt, f w).

Definition gets {A} (f : World -> A) : M A := fun w => (Normal (f w), w).

Declare Scope js_scope.
Delimit Scope js_scope with js.

Notation "x <- c1 ;; c2" := (bind c1 (fun x => c2))
  (at level 61, c1 at next level, right associativity) : js_scope.
Notation "c1 ;; c2" := (bind c1 (fun _ => c2))
  (at level 61, right associativity) : js_scope.

Local Open Scope js_scope.

Definition console_log (msg : string) : M unit :=
  modify (fun w => set_console (console w ++ [(log, msg)]) w).

Definition console_error (msg : string) : M unit :=
  modify (fun w => set_console (console w ++ [(error, msg)]) w).

Definition Alert_alert (title : string) : M unit :=
  modify (fun w => set_alerts (alerts w ++ [title]) w).

(** A call into the platform: it consumes the next entry of the fault
    schedule and rejects if the entry says so; otherwise (also when the
    schedule is exhausted) it performs [op]. *)
Definition platform_call {A} (op : Platform -> A * Platform) : M A :=
  fun w =>
    let p := platform w in
    match faults p with
    | Some e :: rest => (Throw e, set_platform (set_faults rest p) w)
    | None :: rest =>
        let (a, p') := op (set_faults rest p) in (Normal a, set_platform p' w)
    | [] =>
        let (a, p') := op p in (Normal a, set_platform p' w)
    end.

Module Location.

Definition requestForegroundPermissionsAsync : M PermissionStatus :=
  platform_call (fun p => (foregroundAnswer p, p)).

Definition requestBackgroundPermissionsAsync : M PermissionStatus :=
  platform_call (fun p => (backgroundAnswer p, p)).

Definition getCurrentPositionAsync (a : Accuracy) : M LocationObject :=
  platform_call (fun p => (devicePosition p, p)).

(** Opens a watch and returns its subscription: a fresh handle. *)
Definition watchPositionAsync (o : WatchOptions) (l : Listener) : M Handle :=
  platform_call (fun p =>
    let h := nextHandle p in
    (h, set_nextHandle (S h) (set_watches (watches p ++ [mkWatch h l o]) p))).

(** [subscription.remove()] *)
Definition remove (h : Handle) : M unit :=
  platform_call (fun p =>
    (tt, set_watches
           (filter (fun w => negb (Nat.eqb (watch_handle w) h)) (watches p))
           p)).

Definition startLocationUpdatesAsync (name : string) (o : TaskOptions)
  : M unit :=
  platform_call (fun p =>
    (tt, set_locationTasks (locationTasks p ++ [(name, o)]) p)).

Definition stopLocationUpdatesAsync (name : string) : M unit :=
  platform_call (fun p =>
    (tt, set_locationTasks
           (filter (fun t => negb (String.eqb (fst t) name)) (locationTasks p))
           p)).

End Location.

Module TaskManager.

Definition isTaskRegisteredAsync (name : string) : M bool :=
  platform_call (fun p => (task_running name p, p)).

End TaskManager.

(** ** [class LocationService] *)

Definition LOCATION_TRACKING : string := "background-location-task".

Definition set_isTracking (b : bool) (s : LocationService) : LocationService :=
  mkLocationService b (currentLocation s) (locationSubscription s)
    (onLocationUpdate s).

Definition set_currentLocation (l : option LocationData) (s : LocationService)
  : LocationService :=
  mkLocationService (isTracking s) l (locationSubscription s)
    (onLocationUpdate s).

Definition set_locationSubscription (h : option Handle) (s : LocationService)
  : LocationService :=
  mkLocationService (isTracking s) (currentLocation s) h (onLocationUpdate s).

Definition set_onLocationUpdate (f : option Callback) (s : LocationService)
  : LocationService :=
  mkLocationService (isTracking s) (currentLocation s) (locationSubscription s)
    f.

(** [this.field] and [this.field = v] *)
Definition this {A} (field : LocationService -> A) : M A :=
  gets (fun w => field (service w)).

Definition assign (set : LocationService -> LocationService) : M unit :=
  modify (fun w => set_service (set (service w)) w).

(** Calling the caller's callback: the call is appended to [invocations]. *)
Definition call (f : Callback) (arg : LocationData) : M unit :=
  modify (fun w => set_invocations (invocations w ++ [(f, arg)]) w).

Definition requestPermissions : M bool :=
  try_catch
    (foregroundStatus <- Location.requestForegroundPermissionsAsync ;;
     if negb (is_granted foregroundStatus) then
       console_log "Foreground location permission not granted" ;;
       ret false
     else
       backgroundStatus <- Location.requestBackgroundPermissionsAsync ;;
       if negb (is_granted backgroundStatus) then
         console_log
           "Background location permission not granted, but foreground is available" ;;
         ret true
       else ret true)
    (fun _ =>
       console_error "Error requesting location permissions:" ;;
       ret false).

Definition getCurrentLocation : M (option LocationData) :=
  try_catch
    (location <- Location.getCurrentPositionAsync High ;;
     let locationData := toLocationData location in
     assign (set_currentLocation (Some locationData)) ;;
     ret (Some locationData))
    (fun _ =>
       console_error "Error getting current location:" ;;
       ret None).

(** The arrow function handed to [watchPositionAsync] by [startTracking]. *)
Definition onServicePosition (location : LocationObject) : M unit :=
  let locationData := toLocationData location in
  assign (set_currentLocation (Some locationData)) ;;
  console_log "Location updated:" ;;
  f <- this onLocationUpdate ;;
  match f with
  | Some f => call f locationData
  | None => ret tt
  end.

Definition foregroundOptions : WatchOptions :=
  {| watch_accuracy := High;
     watch_timeInterval := 10000;
     watch_distanceInterval := 10 |}.

Definition backgroundOptions : TaskOptions :=
  {| task_accuracy := High;
     task_timeInterval := 30000;
     task_distanceInterval := 50;
     deferredUpdatesInterval := 60000;
     foregroundService :=
       {| notificationTitle := "Location Tracking";
          notificationBody := "Tracking your location in the background";
          notificationColor := "#fff" |} |}.

(** The inner [try] block of [startTracking]: the background registration. *)
Definition registerBackground : M unit :=
  isRegistered <- TaskManager.isTaskRegisteredAsync LOCATION_TRACKING ;;
  if negb isRegistered then
    Location.startLocationUpdatesAsync LOCATION_TRACKING backgroundOptions ;;
    console_log "Background location tracking started"
  else ret tt.

Definition startTracking (onUpdate : option Callback) : M bool :=
  tracking <- this isTracking ;;
  if tracking then
    console_log "Location tracking is already active" ;;
    ret true
  else
    try_catch
      (assign (set_onLocationUpdate onUpdate) ;;
       subscription <-
         Location.watchPositionAsync foregroundOptions ServiceListener ;;
       assign (set_locationSubscription (Some subscription)) ;;
       try_catch registerBackground
         (fun _ =>
            console_log
              "Background location not available, continuing with foreground only:") ;;
       assign (set_isTracking true) ;;
       ret true)
      (fun _ =>
         console_error "Error starting location tracking:" ;;
         ret false).

(** The [try] block of [stopTracking]. *)
Definition teardown : M unit :=
  subscription <- this locationSubscription ;;
  match subscription with
  | Some h =>
      Location.remove h ;;
      assign (set_locationSubscription None)
  | None => ret tt
  end ;;
  isRegistered <- TaskManager.isTaskRegisteredAsync LOCATION_TRACKING ;;
  (if isRegistered then
     Location.stopLocationUpdatesAsync LOCATION_TRACKING ;;
     console_log "Background location tracking stopped"
   else ret tt) ;;
  console_log "service not registered" ;;
  assign (set_isTracking false) ;;
  assign (set_onLocationUpdate None) ;;
  console_log "Location tracking stopped".

Definition stopTracking : M unit :=
  tracking <- this isTracking ;;
  if negb tracking then ret tt
  else
    try_catch teardown
      (fun _ => console_error "Error stopping location tracking:").

Definition getIsTracking : M bool := this isTracking.

Definition getCurrentLocationData : M (option LocationData) :=
  this currentLocation.

(** ** [function LocationTracker]: the view's state and handlers *)

Module LocationTracker.

Import TrackerState.

(** A state setter: React applies it to the hook cell of a mounted
    instance and drops it once the instance is unmounted. *)
Definition setState (f : TrackerState.t -> TrackerState.t) : M unit :=
  modify (fun w =>
    let c := tracker w in
    if mounted c
    then set_tracker (mkComponent true (f (hooks c)) (effectScope c)) w
    else w).

Definition setIsTracking (b : bool) : M unit :=
  setState (fun s => mk b (currentLocation s) (hasPermission s)
                        (lastUpdateTime s) (watchSubscription s)).

Definition setCurrentLocation (l : option LocationData) : M unit :=
  setState (fun s => mk (isTracking s) l (hasPermission s)
                        (lastUpdateTime s) (watchSubscription s)).

Definition setHasPermission (p : option bool) : M unit :=
  setState (fun s => mk (isTracking s) (currentLocation s) p
                        (lastUpdateTime s) (watchSubscription s)).

Definition setLastUpdateTime (t : string) : M unit :=
  setState (fun s => mk (isTracking s) (currentLocation s) (hasPermission s)
                        t (watchSubscription s)).

Definition setWatchSubscription (h : option Handle) : M unit :=
  setState (fun s => mk (isTracking s) (currentLocation s) (hasPermission s)
                        (lastUpdateTime s) h).

(** [new Date().toLocaleTimeString()] *)
Definition toLocaleTimeString : M string :=
  gets (fun w => localeTime (platform w)).

(** [!hasPermission] on a [boolean | null] *)
Definition not_permitted (p : option bool) : bool :=
  match p with Some true => false | _ => true end.

Definition checkPermissions : M unit :=
  try_catch
    (status <- Location.requestForegroundPermissionsAsync ;;
     setHasPermission (Some (is_granted status)) ;;
     if negb (is_granted status) then Alert_alert "Permission Required"
     else ret tt)
    (fun _ =>
       console_error "Permission error:" ;;
       setHasPermission (Some false)).

(** The arrow function handed to [watchPositionAsync] by the view. *)
Definition onTrackerPosition (location : LocationObject) : M unit :=
  let locationData := toLocationData location in
  setCurrentLocation (Some locationData) ;;
  now <- toLocaleTimeString ;;
  setLastUpdateTime now ;;
  console_log "Location updated:".

(** [onPress] of the dialog's Start button. The source guards the use of
    [initialLocation] with [if (initialLocation)]; the fetch returns an
    object, which is truthy, so the guarded statements always run. *)
Definition onPressStart : M unit :=
  try_catch
    (subscription <-
       Location.watchPositionAsync foregroundOptions TrackerListener ;;
     setWatchSubscription (Some subscription) ;;
     setIsTracking true ;;
     initialLocation <- Location.getCurrentPositionAsync High ;;
     setCurrentLocation (Some (toLocationData initialLocation)) ;;
     now <- toLocaleTimeString ;;
     setLastUpdateTime now)
    (fun _ =>
       console_error "Location tracking error:" ;;
       Alert_alert "Error").

(** The handlers below belong to one render; [scope] is that render's
    constants. *)
Definition handleStartTracking (scope : TrackerState.t) : M unit :=
  if not_permitted (hasPermission scope) then checkPermissions
  else Alert_alert "Start Location Tracking".

Definition handleStopTracking (scope : TrackerState.t) : M unit :=
  match watchSubscription scope with
  | Some h =>
      Location.remove h ;;
      setWatchSubscription None
  | None => ret tt
  end ;;
  setIsTracking false ;;
  setLastUpdateTime "".

Definition handleGetCurrentLocation (scope : TrackerState.t) : M unit :=
  if not_permitted (hasPermission scope) then checkPermissions
  else
    try_catch
      (location <- Location.getCurrentPositionAsync High ;;
       setCurrentLocation (Some (toLocationData location)) ;;
       now <- toLocaleTimeString ;;
       setLastUpdateTime now)
      (fun _ =>
         console_error "Get location error:" ;;
         Alert_alert "Error").

(** The function returned by the effect: [if (watchSubscription)
    watchSubscription.remove()] over the constants the effect closed
    over. *)
Definition cleanup (scope : TrackerState.t) : M unit :=
  match watchSubscription scope with
  | Some h => Location.remove h
  | None => ret tt
  end.

(** Mounting: the first render binds the initial hook values; its effect
    is installed (keeping that render's constants for the cleanup) and
    calls [checkPermissions()]. *)
Definition mount : M unit :=
  modify (set_tracker (mkComponent true initial initial)) ;;
  scope <- gets (fun w => hooks (tracker w)) ;;
  modify (fun w => set_tracker (mkComponent true (hooks (tracker w)) scope) w) ;;
  checkPermissions.

(** Unmounting runs the cleanup of the installed effect. *)
Definition unmount : M unit :=
  scope <- gets (fun w => effectScope (tracker w)) ;;
  cleanup scope ;;
  modify (fun w =>
    set_tracker (mkComponent false (hooks (tracker w))
                   (effectScope (tracker w))) w).

(** What can happen to a mounted view. A gesture runs the handler of the
    latest render, whose constants are the current hook values. *)
Inductive Gesture : Type :=
| PressRequestPermission
| PressStartTracking
| ConfirmStart
| PressStopTracking
| PressGetCurrentLocation.

Definition on_gesture (g : Gesture) : M unit :=
  scope <- gets (fun w => hooks (tracker w)) ;;
  match g with
  | PressRequestPermission => checkPermissions
  | PressStartTracking => handleStartTracking scope
  | ConfirmStart => onPressStart
  | PressStopTracking => handleStopTracking scope
  | PressGetCurrentLocation => handleGetCurrentLocation scope
  end.

End LocationTracker.

(** ** The provider delivering a position to an open watch *)

Definition deliver (h : Handle) (location : LocationObject) : M unit :=
  found <- gets (fun w =>
             find (fun x => Nat.eqb (watch_handle x) h) (watches (platform w))) ;;
  match found with
  | Some x =>
      match watch_listener x with
      | ServiceListener => onServicePosition location
      | TrackerListener => LocationTracker.onTrackerPosition location
      end
  | None => ret tt
  end.

(** The world a statement leaves behind when run from [w], and how it
    completes. *)
Definition exec {A} (c : M A) (w : World) : World := snd (c w).

Definition result {A} (c : M A) (w : World) : Completion A := fst (c w).

(** A freshly started process: nothing open, nothing registered, no fault
    scheduled. *)
Definition quiet_platform (fg bg : PermissionStatus) (here : LocationObject)
  : Platform :=
  {| foregroundAnswer := fg;
     backgroundAnswer := bg;
     devicePosition := here;
     localeTime := "12:00:00 PM";
     watches := [];
     nextHandle := O;
     locationTasks := [];
     faults := [] |}.

Definition boot (p : Platform) : World :=
  {| platform := p;
     service := newLocationService;
     tracker := mkComponent false TrackerState.initial TrackerState.initial;
     invocations := [];
     console := [];
     alerts := [] |}.

(** ** The background task of [LocationService.ts]

    The function given to [TaskManager.defineTask] when the module is
    loaded; the platform calls it with the locations of a background
    delivery, or with an error. *)
Definition backgroundTask (data : option (list LocationObject))
  (err : option Error) : M unit :=
  match err with
  | Some _ => console_error "Location task error:"
  | None =>
      match data with
      | Some _ => console_log "Background location received:"
      | None => ret tt
      end
  end.

(** * Vocabulary of the statements

    Observations, intermediate statements and concrete worlds that the
    properties below are stated with. *)

(** [c] keeps the observation [f] of the world. *)
Definition keeps {X A : Type} (f : World -> X) (c : M A) : Prop :=
  forall w, f (snd (c w)) = f w.

(** The coming platform call is not scheduled to reject. *)
Definition next_call_succeeds (w : World) : bool :=
  match faults (platform w) with
  | Some _ :: _ => false
  | _ => true
  end.

(** The platform as the coming call finds it, its schedule entry consumed. *)
Definition consume (p : Platform) : Platform := set_faults (tl (faults p)) p.

(** What the platform answers to the foreground request of a run of
    [requestPermissions] from [w], and to the background request that
    follows it. *)
Definition foreground_request (w : World) : Completion PermissionStatus :=
  result Location.requestForegroundPermissionsAsync w.

Definition background_request (w : World) : Completion PermissionStatus :=
  result Location.requestBackgroundPermissionsAsync
    (exec Location.requestForegroundPermissionsAsync w).

(** The inner [try]/[catch] of [startTracking]. *)
Definition backgroundAttempt : M unit :=
  try_catch registerBackground
    (fun _ =>
       console_log
         "Background location not available, continuing with foreground only:").

(** The statements of the outer [try] block that come before the background
    attempt. *)
Definition openForeground (onUpdate : option Callback) : M unit :=
  assign (set_onLocationUpdate onUpdate) ;;
  subscription <-
    Location.watchPositionAsync foregroundOptions ServiceListener ;;
  assign (set_locationSubscription (Some subscription)).

(** What the background attempt cannot touch. *)
Definition foreground_view (w : World) :=
  (service w, watches (platform w), nextHandle (platform w), tracker w,
   invocations w).

(** Replacing the fault schedule of a world. *)
Definition with_faults (fs : list (option Error)) (w : World) : World :=
  set_platform (set_faults fs (platform w)) w.

(** The two samples of the delivery scenario, as the provider emits them. *)
Definition sample_first : LocationObject :=
  {| coords := {| coords_latitude := 37.0%float;
                  coords_longitude := (-122.0)%float;
                  coords_accuracy := Some 5.0%float |};
     location_timestamp := 1000%float |}.

Definition sample_second : LocationObject :=
  {| coords := {| coords_latitude := 0x1.2800346dc5d64p+5%float;  (* 37.0001 *)
                  coords_longitude := (-122.0)%float;
                  coords_accuracy := Some 4.0%float |};
     location_timestamp := 11000%float |}.

(** A process in which nothing has been started yet. *)
Definition idle_world : World :=
  boot (quiet_platform granted granted sample_first).

(** The user grants the foreground permission and refuses the background
    one; the user refuses the foreground one. *)
Definition foreground_only_world : World :=
  boot (quiet_platform granted denied sample_first).

Definition foreground_denied_world : World :=
  boot (quiet_platform denied granted sample_first).

(** A coordinator that holds a sample from an earlier fetch, the platform
    being about to reject the next one. *)
Definition fetch_failing_world : World :=
  with_faults [Some (PlatformError "E_LOCATION_UNAVAILABLE")]
    (exec getCurrentLocation idle_world).

(** The coordinator after a successful [startTracking(f)], [f] being the
    callback number 7; then the platform is about to accept the removal of
    the subscription and to reject the query of the task manager. *)
Definition tracking_world : World :=
  exec (startTracking (Some 7%nat)) idle_world.

Definition failing_teardown_world : World :=
  with_faults [None; Some (PlatformError "E_TASK_SERVICE")] tracking_world.

(** What the platform answers to the one-shot fetch made from [w]. *)
Definition position_fetch (w : World) : Completion LocationObject :=
  result (Location.getCurrentPositionAsync High) w.

(** The platform accepts the watch, answers the task manager's query and
    rejects the registration for want of the background permission. *)
Definition background_denied_world : World :=
  with_faults [None; None; Some (PlatformError "E_NO_PERMISSIONS")]
    (boot (quiet_platform granted denied sample_first)).

(** Every open watch has a handle below the next one to be handed out. *)
Definition handles_fresh (p : Platform) : bool :=
  forallb (fun x => Nat.ltb (watch_handle x) (nextHandle p)) (watches p).

(** What can happen to a mounted view: a gesture, or a position delivered
    to one of the open watches. *)
Inductive ViewEvent : Type :=
| Gesture (g : LocationTracker.Gesture)
| Position (h : Handle) (location : LocationObject).

Definition on_event (ev : ViewEvent) : M unit :=
  match ev with
  | Gesture g => LocationTracker.on_gesture g
  | Position h location => deliver h location
  end.

(** The events happen one after the other; a handler that throws (an
    unhandled rejection) does not keep the next event from happening. *)
Fixpoint play (evs : list ViewEvent) (w : World) : World :=
  match evs with
  | [] => w
  | ev :: evs' => play evs' (exec (on_event ev) w)
  end.

(** The constants the installed effect closed over. *)
Definition effect_view (w : World) : TrackerState.t := effectScope (tracker w).

(** A granted permission, a press on Start Tracking, a confirmation. *)
Definition tracking_view : World :=
  play [Gesture LocationTracker.PressStartTracking;
        Gesture LocationTracker.ConfirmStart]
    (exec LocationTracker.mount idle_world).

(** [x] is the binary64 value nearest to the fraction [num / den]: it is
    finite and positive and lies within half a unit in the last place of
    the fraction, strictly. *)
Definition nearest_binary64 (x : number) (num den : Z) : bool :=
  match Prim2SF x with
  | S754_finite false m e =>
      (2 ^ 52 <=? Z.pos m) && (Z.pos m <? 2 ^ 53) && (e <? 0) &&
      (Z.abs (2 * Z.pos m * den - 2 * num * 2 ^ (- e)) <? den)
  | _ => false
  end.

(** The latitude of the formatting example, 37.123456789. *)
Definition example_latitude : number := 0x1.28fcd6e9b9cb2p+5%float.

(** The number that a whole number between -2^53 and 2^53 is, exactly. *)
Definition number_of_Z (z : Z) : number :=
  match z with
  | Z0 => 0%float
  | Zpos m => SF2Prim (S754_finite false m 0)
  | Zneg m => SF2Prim (S754_finite true m 0)
  end.

(** The whole numbers from 0 to 100. *)
Definition digit_counts : list Z := map Z.of_nat (seq 0 101).

(** A number that [toFixed] prints in positional notation: finite, and
    below [1e21] in magnitude. *)
Definition positional (x : number) : bool :=
  match Prim2SF x with
  | S754_zero _ => true
  | S754_finite _ m e => negb (at_least_1e21 m e)
  | _ => false
  end.

(** The coordinator's fields after a stop that ran to its end. *)
Definition stopped (s : LocationService) : LocationService :=
  {| isTracking := false;
     currentLocation := currentLocation s;
     locationSubscription := None;
     onLocationUpdate := None |}.

(** What a statement that does not talk to the location provider leaves
    alone: the coordinator, the view, the callback log and the platform. *)
Definition app_view (w : World) :=
  (service w, tracker w, invocations w, platform w).

(** What tracking is made of: the coordinator's tracking fields and the
    platform's open watches and background tasks. *)
Definition tracking_parts (w : World) :=
  (isTracking (service w), locationSubscription (service w),
   onLocationUpdate (service w), watches (platform w),
   locationTasks (platform w)).

(** The coordinator's side of the world, and the view's side. *)
Definition coordinator_side (w : World) := (service w, invocations w).

Definition view_side (w : World) := (tracker w, alerts w).

(** The state cells of the view. *)
Definition view_state (w : World) : TrackerState.t := hooks (tracker w).

(** The view's two tracking cells agree, and a subscription it holds is an
    open watch. *)
Definition view_consistent (w : World) : bool :=
  match TrackerState.watchSubscription (view_state w) with
  | Some h =>
      TrackerState.isTracking (view_state w) && is_open h (platform w)
  | None => negb (TrackerState.isTracking (view_state w))
  end.

(** What tracking is made of on the view's side: its two tracking cells and
    the platform's open watches. *)
Definition view_tracking_parts (w : World) :=
  (TrackerState.isTracking (view_state w),
   TrackerState.watchSubscription (view_state w),
   watches (platform w)).

(** * Properties *)

(** ** Reasoning tools *)

(** Opening a world down to its fields. *)
Ltac open_world w :=
  destruct w as [[? ? ? ? ? ? ? ?] [? ? ? ?] [? ? ?] ? ? ?].

(** Case analysis on the outcome of the next [n] platform calls. *)
Ltac next_faults fs n :=
  lazymatch n with
  | O => idtac
  | S ?k =>
      let e := fresh "e" in
      let r := fresh "fs" in
      destruct fs as [|[e|] r]; [ | next_faults r k | next_faults r k ]
  end.

(** *** Frames: statements that leave an observation of the world alone *)

Section Frames.

Context {X : Type} (f : World -> X).

Lemma keeps_ret {A} (a : A) : keeps f (ret a).
Proof. intro w; reflexivity. Qed.

Lemma keeps_throw {A} (e : Error) : keeps f (@throw A e).
Proof. intro w; reflexivity. Qed.

Lemma keeps_bind {A B} (c : M A) (k : A -> M B) :
  keeps f c -> (forall a, keeps f (k a)) -> keeps f (bind c k).
Proof.
  intros Hc Hk w. unfold bind. specialize (Hc w).
  destruct (c w) as [[a|e] w']; cbn in *.
  - rewrite Hk. exact Hc.
  - exact Hc.
Qed.

Lemma keeps_try_catch {A} (body : M A) (handler : Error -> M A) :
  keeps f body -> (forall e, keeps f (handler e)) ->
  keeps f (try_catch body handler).
Proof.
  intros Hb Hh w. unfold try_catch. specialize (Hb w).
  destruct (body w) as [[a|e] w']; cbn in *.
  - exact Hb.
  - rewrite Hh. exact Hb.
Qed.

Lemma keeps_if {A} (b : bool) (c1 c2 : M A) :
  keeps f c1 -> keeps f c2 -> keeps f (if b then c1 else c2).
Proof. destruct b; auto. Qed.

Lemma keeps_match_option {A B} (o : option B) (c1 : B -> M A) (c2 : M A) :
  (forall b, keeps f (c1 b)) -> keeps f c2 ->
  keeps f (match o with Some b => c1 b | None => c2 end).
Proof. destruct o; auto. Qed.

Lemma keeps_modify (g : World -> World) :
  (forall w, f (g w) = f w) -> keeps f (modify g).
Proof. intros H w. apply H. Qed.

Lemma keeps_gets {A} (g : World -> A) : keeps f (gets g).
Proof. intro w; reflexivity. Qed.

(** A platform call keeps [f] if [f] does not look at the fault schedule
    and the operation itself keeps it. *)
Lemma keeps_platform_call {A} (op : Platform -> A * Platform) :
  (forall fs w, f (set_platform (set_faults fs (platform w)) w) = f w) ->
  (forall p w, f (set_platform (snd (op p)) w) = f (set_platform p w)) ->
  keeps f (platform_call op).
Proof.
  intros Hfaults Hop w. unfold platform_call.
  assert (Hid : f (set_platform (platform w) w) = f w)
    by (destruct w; reflexivity).
  destruct (faults (platform w)) as [|[e|] rest]; cbn.
  - destruct (op (platform w)) as [a p'] eqn:E; cbn.
    change p' with (snd (a, p')). rewrite <- E, Hop. exact Hid.
  - apply Hfaults.
  - destruct (op (set_faults rest (platform w))) as [a p'] eqn:E; cbn.
    change p' with (snd (a, p')). rewrite <- E, Hop. apply Hfaults.
Qed.

End Frames.

(** Walks down the structure of a statement; what is left at a leaf is an
    equation between two observations, closed by computation. *)
Ltac frame :=
  repeat (intros; cbv beta;
          first [ apply keeps_bind | apply keeps_try_catch | apply keeps_if
                | apply keeps_match_option
                | apply keeps_ret | apply keeps_throw | apply keeps_gets
                | apply keeps_modify; intros; reflexivity
                | apply keeps_platform_call; intros; reflexivity ]).

Ltac unfold_platform :=
  unfold Location.requestForegroundPermissionsAsync,
    Location.requestBackgroundPermissionsAsync,
    Location.getCurrentPositionAsync, Location.watchPositionAsync,
    Location.remove, Location.startLocationUpdatesAsync,
    Location.stopLocationUpdatesAsync, TaskManager.isTaskRegisteredAsync,
    console_log, console_error, Alert_alert, this, assign, call.

(** *** Outcomes of a platform call *)

Lemma platform_call_rejects {A} (op : Platform -> A * Platform) w e rest :
  faults (platform w) = Some e :: rest ->
  platform_call op w = (Throw e, set_platform (set_faults rest (platform w)) w).
Proof. intros H. unfold platform_call. rewrite H. reflexivity. Qed.

Lemma platform_call_returns {A} (op : Platform -> A * Platform) w :
  next_call_succeeds w = true ->
  platform_call op w =
    (Normal (fst (op (consume (platform w)))),
     set_platform (snd (op (consume (platform w)))) w).
Proof.
  unfold next_call_succeeds, platform_call, consume.
  destruct w as [p s t i c a]; cbn.
  destruct p as [fa ba dp lt ws nh ts fs]; cbn.
  destruct fs as [|[e|] rest]; cbn; intros H; try discriminate;
    unfold set_faults; cbn;
    match goal with |- context [op ?p] => destruct (op p) end; reflexivity.
Qed.

(** ** [requestPermissions] *)

(** C4. [requestPermissions] never throws. It returns [false] exactly when
    the foreground request is answered with a status other than ['granted']
    (the request is denied) or a request it makes is rejected by the platform
    (the foreground one, or the background one after a granted foreground
    one). With the foreground granted and the background request answered,
    whatever the answer, it returns [true]. *)
Theorem requestPermissions_outcome : forall w : World,
  (exists b, result requestPermissions w = Normal b) /\
  (result requestPermissions w = Normal false <->
     (exists s, foreground_request w = Normal s /\ s <> granted) \/
     threw (foreground_request w) = true \/
     (foreground_request w = Normal granted /\
      threw (background_request w) = true)) /\
  (forall s, foreground_request w = Normal granted ->
             background_request w = Normal s ->
             result requestPermissions w = Normal true).
Proof.
  intros w. open_world w.
  unfold foreground_request, background_request, result, exec.
  next_faults faults0 constr:(2%nat);
    destruct foregroundAnswer0, backgroundAnswer0; cbn;
    (split; [eexists; reflexivity|]);
    (split; [split|]);
    try (intros H; discriminate H);
    try (intros _; solve [ reflexivity
                         | left; eexists; split; [reflexivity | discriminate]
                         | right; left; reflexivity
                         | right; right; split; reflexivity ]);
    try (intros [[s [H1 H2]] | [H | [H1 H2]]];
         solve [ discriminate
               | inversion H1; subst; congruence ]);
    try (intros s H1 H2; solve [reflexivity | discriminate]).
Qed.

Lemma requestPermissions_outcome_witness :
  result requestPermissions foreground_only_world = Normal true /\
  result requestPermissions foreground_denied_world = Normal false.
Proof.
  destruct (requestPermissions_outcome foreground_only_world)
    as [_ [_ Hgranted]].
  destruct (requestPermissions_outcome foreground_denied_world)
    as [_ [[_ Hdenied] _]].
  split.
  - apply (Hgranted denied); reflexivity.
  - apply Hdenied. left. exists denied. split; [reflexivity | discriminate].
Defined.

(** C10. [requestPermissions] leaves the four fields of the coordinator as
    they were, whatever the platform answers and whether or not it
    rejects. *)
Theorem requestPermissions_keeps_state : forall w : World,
  service (exec requestPermissions w) = service w.
Proof.
  assert (H : keeps service requestPermissions).
  { unfold requestPermissions. unfold_platform. frame. }
  exact H.
Qed.

(** *** Running a statement whose outcome is known *)

Lemma bind_normal {A B} (c : M A) (k : A -> M B) w a :
  result c w = Normal a -> bind c k w = k a (exec c w).
Proof. unfold result, exec, bind. destruct (c w) as [r w']; cbn. now intros ->. Qed.

Lemma bind_throw {A B} (c : M A) (k : A -> M B) w e :
  result c w = Throw e -> bind c k w = (Throw e, exec c w).
Proof. unfold result, exec, bind. destruct (c w) as [r w']; cbn. now intros ->. Qed.

Lemma try_catch_normal {A} (body : M A) (handler : Error -> M A) w a :
  result body w = Normal a -> try_catch body handler w = (Normal a, exec body w).
Proof.
  unfold result, exec, try_catch. destruct (body w) as [r w']; cbn. now intros ->.
Qed.

Lemma try_catch_throw {A} (body : M A) (handler : Error -> M A) w e :
  result body w = Throw e -> try_catch body handler w = handler e (exec body w).
Proof.
  unfold result, exec, try_catch. destruct (body w) as [r w']; cbn. now intros ->.
Qed.

(** ** [startTracking] *)

Lemma backgroundAttempt_frame : keeps foreground_view backgroundAttempt.
Proof.
  unfold backgroundAttempt, registerBackground. unfold_platform. frame.
Qed.

Lemma backgroundAttempt_returns : forall w,
  result backgroundAttempt w = Normal tt.
Proof.
  intros w. unfold result, backgroundAttempt, try_catch.
  destruct (registerBackground w) as [[[]|e] w']; reflexivity.
Qed.

Lemma openForeground_returns (w : World) (cb : option Callback) :
  next_call_succeeds w = true ->
  result (openForeground cb) w = Normal tt /\
  exec (openForeground cb) w =
    let h := nextHandle (platform w) in
    set_service
      (mkLocationService (isTracking (service w)) (currentLocation (service w))
         (Some h) cb)
      (set_platform
         (set_nextHandle (S h)
            (set_watches
               (watches (platform w)
                  ++ [mkWatch h ServiceListener foregroundOptions])
               (consume (platform w))))
         w).
Proof.
  intros Hnext.
  unfold result, exec, openForeground, Location.watchPositionAsync, assign,
    modify, bind.
  rewrite platform_call_returns by exact Hnext.
  split; reflexivity.
Qed.


Lemma bind_this {A B} (field : LocationService -> A) (k : A -> M B) w :
  bind (this field) k w = k (field (service w)) w.
Proof. reflexivity. Qed.

Lemma bind_assign {B} (set : LocationService -> LocationService)
  (k : unit -> M B) w :
  bind (assign set) k w = k tt (set_service (set (service w)) w).
Proof. reflexivity. Qed.

Lemma bind_platform_call {A B} (op : Platform -> A * Platform)
  (k : A -> M B) w :
  next_call_succeeds w = true ->
  bind (platform_call op) k w =
    k (fst (op (consume (platform w))))
      (set_platform (snd (op (consume (platform w)))) w).
Proof.
  intros H. unfold bind. rewrite platform_call_returns by exact H. reflexivity.
Qed.

(** The run of [startTracking] from an idle coordinator when the platform
    opens the watch. *)
Lemma startTracking_runs (w : World) (cb : option Callback) :
  isTracking (service w) = false ->
  next_call_succeeds w = true ->
  startTracking cb w =
    (Normal true,
     let w2 := exec backgroundAttempt (exec (openForeground cb) w) in
     set_service (set_isTracking true (service w2)) w2).
Proof.
  intros Hoff Hnext.
  destruct (openForeground_returns w cb Hnext) as [_ Hopen].
  unfold startTracking. fold backgroundAttempt.
  rewrite bind_this, Hoff.
  unfold try_catch at 1.
  rewrite bind_assign. unfold Location.watchPositionAsync.
  rewrite bind_platform_call by exact Hnext.
  rewrite bind_assign.
  rewrite (bind_normal backgroundAttempt _ _ tt)
    by apply backgroundAttempt_returns.
  rewrite bind_assign, Hopen.
  reflexivity.
Qed.

(** ** [stopTracking] *)

Lemma teardown_cases (w : World) :
  let w' := exec teardown w in
  (result teardown w = Normal tt /\
   isTracking (service w') = false /\
   onLocationUpdate (service w') = None /\
   locationSubscription (service w') = None) \/
  (threw (result teardown w) = true /\
   isTracking (service w') = isTracking (service w) /\
   onLocationUpdate (service w') = onLocationUpdate (service w) /\
   currentLocation (service w') = currentLocation (service w)).
Proof.
  open_world w.
  cbv [exec result teardown bind this gets assign modify platform_call
       Location.remove Location.stopLocationUpdatesAsync
       TaskManager.isTaskRegisteredAsync console_log ret
       platform service faults fst snd set_platform set_service set_faults
       set_watches set_locationTasks set_console set_isTracking
       set_onLocationUpdate set_locationSubscription
       locationSubscription isTracking onLocationUpdate currentLocation
       watches locationTasks console foregroundAnswer backgroundAnswer
       devicePosition localeTime nextHandle tracker invocations alerts].
  destruct locationSubscription0 as [h|];
    next_faults faults0 constr:(3%nat);
    repeat match goal with
      | |- context [task_running ?n ?p] => destruct (task_running n p)
      end;
    cbv [threw fst snd service isTracking onLocationUpdate locationSubscription currentLocation];
    solve [ left; repeat split | right; repeat split ].
Qed.

(** C1, as the code has it. With [isTracking] set, [stopTracking] never
    throws. When its teardown meets a platform error, the error is caught
    and [isTracking] and the stored callback stay as they were; they are
    cleared (and the subscription field with them) when the teardown runs
    to its end. *)
Theorem stopTracking_teardown_error : forall w : World,
  isTracking (service w) = true ->
  let w' := exec stopTracking w in
  result stopTracking w = Normal tt /\
  (threw (result teardown w) = true ->
     isTracking (service w') = true /\
     onLocationUpdate (service w') = onLocationUpdate (service w)) /\
  (threw (result teardown w) = false ->
     isTracking (service w') = false /\
     onLocationUpdate (service w') = None /\
     locationSubscription (service w') = None).
Proof.
  intros w Hon. cbv zeta.
  assert (Hstop : stopTracking w =
                  try_catch teardown
                    (fun _ => console_error "Error stopping location tracking:")
                    w).
  { unfold stopTracking. rewrite bind_this, Hon. reflexivity. }
  unfold result at 1, exec. rewrite Hstop. clear Hstop.
  destruct (teardown_cases w) as [[Hr [H1 [H2 H3]]] | [Hr [H1 [H2 _]]]].
  - rewrite (try_catch_normal _ _ _ _ Hr). cbn [fst snd].
    rewrite Hr. cbn. split; [reflexivity|]. split.
    + intros Hf; discriminate Hf.
    + intros _. auto.
  - destruct (result teardown w) as [[]|e] eqn:He; [discriminate Hr|].
    rewrite (try_catch_throw _ _ _ _ He). cbn.
    split; [reflexivity|]. split.
    + intros _. split; congruence.
    + intros Hf; discriminate Hf.
Qed.

Lemma stopTracking_teardown_error_witness :
  result stopTracking tracking_world = Normal tt /\
  isTracking (service (exec stopTracking tracking_world)) = false /\
  isTracking (service (exec stopTracking failing_teardown_world)) = true.
Proof.
  destruct (stopTracking_teardown_error tracking_world eq_refl)
    as [Hr [_ Hclear]].
  destruct (stopTracking_teardown_error failing_teardown_world eq_refl)
    as [_ [Hkeep _]].
  split; [exact Hr|]. split.
  - apply Hclear. reflexivity.
  - apply Hkeep. reflexivity.
Defined.

(** C1, as the claim has it, fails: here the subscription is removed, the
    task manager then rejects the query, and [stopTracking] returns with
    [isTracking] still set and the callback still stored. *)
Lemma stopTracking_keeps_flags_on_error :
  isTracking (service failing_teardown_world) = true /\
  threw (result teardown failing_teardown_world) = true /\
  result stopTracking failing_teardown_world = Normal tt /\
  isTracking (service (exec stopTracking failing_teardown_world)) = true /\
  onLocationUpdate (service (exec stopTracking failing_teardown_world))
    = Some 7%nat /\
  locationSubscription (service (exec stopTracking failing_teardown_world))
    = None.
Proof. repeat split. Qed.

(** C8. With [isTracking] unset, [stopTracking] returns at once, without
    error, and the whole world (the coordinator's four fields included) is
    as before. *)
Theorem stopTracking_idle : forall w : World,
  isTracking (service w) = false ->
  stopTracking w = (Normal tt, w).
Proof.
  intros w Hoff. unfold stopTracking. rewrite bind_this, Hoff. reflexivity.
Qed.

Lemma stopTracking_idle_witness :
  isTracking (service idle_world) = false /\
  stopTracking idle_world = (Normal tt, idle_world).
Proof.
  split; [reflexivity | apply (stopTracking_idle idle_world); reflexivity].
Defined.

(** ** [getCurrentLocation] *)

(** C5. If the one-shot fetch is rejected, [getCurrentLocation] returns
    [null] and the coordinator's fields, the stored sample among them, are as
    before; if it is answered with the coordinates [lat], [lon], the
    accuracy [acc] and the timestamp [t], the sample with exactly these four
    values is stored and returned. *)
Theorem getCurrentLocation_outcome : forall w : World,
  let w' := exec getCurrentLocation w in
  (threw (position_fetch w) = true ->
     result getCurrentLocation w = Normal None /\
     service w' = service w) /\
  (forall (lat lon : number) (acc : option number) (t : number),
     position_fetch w = Normal (mkLocationObject (mkCoords lat lon acc) t) ->
     result getCurrentLocation w
       = Normal (Some (mkLocationData lat lon acc t)) /\
     currentLocation (service w') = Some (mkLocationData lat lon acc t)).
Proof.
  intros w. cbv zeta.
  unfold position_fetch, getCurrentLocation. split.
  - intros Hthrow.
    destruct (result (Location.getCurrentPositionAsync High) w)
      as [l|e] eqn:He; [discriminate Hthrow|].
    unfold result at 1, exec, try_catch.
    rewrite (bind_throw _ _ _ _ He). cbn.
    split; [reflexivity|].
    unfold exec, Location.getCurrentPositionAsync.
    apply (keeps_platform_call service); reflexivity.
  - intros lat lon acc t He.
    unfold result, exec, try_catch.
    rewrite (bind_normal _ _ _ _ He). cbn. split; reflexivity.
Qed.

(** The device is at (37.0, -122.0), accuracy 5.0, time 1000. A first fetch
    is answered; a second one is rejected and the stored sample stays. *)
Lemma getCurrentLocation_outcome_witness :
  result getCurrentLocation idle_world
    = Normal (Some (mkLocationData 37.0%float (-122.0)%float
                      (Some 5.0%float) 1000%float)) /\
  currentLocation (service (exec getCurrentLocation idle_world))
    = Some (mkLocationData 37.0%float (-122.0)%float
              (Some 5.0%float) 1000%float) /\
  result getCurrentLocation fetch_failing_world = Normal None /\
  currentLocation (service (exec getCurrentLocation fetch_failing_world))
    = Some (mkLocationData 37.0%float (-122.0)%float
              (Some 5.0%float) 1000%float).
Proof.
  destruct (getCurrentLocation_outcome fetch_failing_world) as [Hfail _].
  destruct (getCurrentLocation_outcome idle_world) as [_ Hok].
  destruct (Hfail eq_refl) as [Hnone Hsame].
  destruct (Hok 37.0%float (-122.0)%float (Some 5.0%float) 1000%float
              eq_refl) as [Hsome Hstored].
  split; [exact Hsome|]. split; [exact Hstored|]. split; [exact Hnone|].
  rewrite Hsame. exact Hstored.
Defined.

(** ** [startTracking]: the two ways through it *)

Lemma startTracking_again (w : World) (cb : option Callback) :
  isTracking (service w) = true ->
  startTracking cb w =
    (Normal true,
     set_console (console w ++ [(log, "Location tracking is already active")])
       w).
Proof.
  intros Hon. unfold startTracking. rewrite bind_this, Hon. reflexivity.
Qed.

Lemma startTracking_fresh (w : World) (cb : option Callback) :
  isTracking (service w) = false ->
  next_call_succeeds w = true ->
  let w' := exec (startTracking cb) w in
  result (startTracking cb) w = Normal true /\
  service w' =
    {| isTracking := true;
       currentLocation := currentLocation (service w);
       locationSubscription := Some (nextHandle (platform w));
       onLocationUpdate := cb |} /\
  watches (platform w') =
    (watches (platform w)
       ++ [mkWatch (nextHandle (platform w)) ServiceListener foregroundOptions])%list /\
  nextHandle (platform w') = S (nextHandle (platform w)) /\
  tracker w' = tracker w /\
  invocations w' = invocations w.
Proof.
  intros Hoff Hnext. cbv zeta.
  unfold result, exec at 1 2 3 4 5.
  rewrite (startTracking_runs w cb Hoff Hnext).
  cbv zeta. cbn [fst snd].
  destruct (openForeground_returns w cb Hnext) as [_ Hopen].
  pose proof (backgroundAttempt_frame (exec (openForeground cb) w)) as Hframe.
  fold (exec backgroundAttempt (exec (openForeground cb) w)) in Hframe.
  remember (exec (openForeground cb) w) as w1 eqn:Hw1.
  remember (exec backgroundAttempt w1) as w2 eqn:Hw2.
  unfold foreground_view in Hframe.
  inversion Hframe as [[Hs Hw Hn Ht Hi]].
  cbn. rewrite Hs, Hw, Hn, Ht, Hi, Hopen. cbn. rewrite Hoff.
  repeat split.
Qed.

Lemma startTracking_rejected (w : World) (cb : option Callback) :
  isTracking (service w) = false ->
  next_call_succeeds w = false ->
  result (startTracking cb) w = Normal false /\
  result (openForeground cb) w <> Normal tt /\
  isTracking (service (exec (startTracking cb) w)) = false.
Proof.
  intros Hoff Hnext. unfold next_call_succeeds in Hnext.
  destruct (faults (platform w)) as [|[e|] rest] eqn:Hf; try discriminate.
  unfold result, exec, startTracking, openForeground.
  rewrite bind_this, Hoff. unfold try_catch.
  rewrite !bind_assign. unfold Location.watchPositionAsync, bind.
  rewrite !(platform_call_rejects _ _ e rest) by exact Hf.
  cbn. rewrite Hoff. repeat split. discriminate.
Qed.

Lemma handles_of_opened (l : Listener) (p p' : Platform) (h : Handle) o :
  watches p' = (watches p ++ [mkWatch h l o])%list ->
  handles_of l p' = (handles_of l p ++ [h])%list.
Proof.
  intros H. unfold handles_of. rewrite H, filter_app, map_app. cbn.
  destruct l; reflexivity.
Qed.

(** C3. With [isTracking] already set, [startTracking] returns [true] and
    touches neither the platform (no watch is opened) nor the coordinator
    (the stored callback stays). In particular, when the platform opens the
    watch for a first call made on an idle coordinator, that call and a
    second one both return [true], the second one with another callback
    changes nothing, and the coordinator's open watches are those of before
    plus exactly one. *)
Theorem startTracking_idempotent :
  (forall (w : World) (cb : option Callback),
     isTracking (service w) = true ->
     let w' := exec (startTracking cb) w in
     result (startTracking cb) w = Normal true /\
     platform w' = platform w /\
     service w' = service w) /\
  (forall (w : World) (cb1 cb2 : option Callback),
     isTracking (service w) = false ->
     next_call_succeeds w = true ->
     let w1 := exec (startTracking cb1) w in
     let w2 := exec (startTracking cb2) w1 in
     result (startTracking cb1) w = Normal true /\
     result (startTracking cb2) w1 = Normal true /\
     handles_of ServiceListener (platform w2) =
       (handles_of ServiceListener (platform w) ++ [nextHandle (platform w)])%list /\
     locationSubscription (service w2) = Some (nextHandle (platform w)) /\
     onLocationUpdate (service w2) = cb1).
Proof.
  split.
  - intros w cb Hon. cbv zeta. unfold result, exec.
    rewrite (startTracking_again w cb Hon). repeat split.
  - intros w cb1 cb2 Hoff Hnext. cbv zeta.
    destruct (startTracking_fresh w cb1 Hoff Hnext)
      as [Hr [Hs [Hw _]]].
    remember (exec (startTracking cb1) w) as w1 eqn:Hw1.
    assert (Hon : isTracking (service w1) = true)
      by (rewrite Hs; reflexivity).
    split; [exact Hr|].
    unfold result, exec.
    rewrite (startTracking_again w1 cb2 Hon). cbn [fst snd].
    split; [reflexivity|].
    change (platform (set_console ?c ?x)) with (platform x).
    change (service (set_console ?c ?x)) with (service x).
    rewrite Hs. cbn. repeat split.
    eapply handles_of_opened. exact Hw.
Qed.

Lemma startTracking_idempotent_witness :
  let w1 := exec (startTracking (Some 7%nat)) idle_world in
  let w2 := exec (startTracking (Some 8%nat)) w1 in
  result (startTracking (Some 7%nat)) idle_world = Normal true /\
  result (startTracking (Some 8%nat)) w1 = Normal true /\
  handles_of ServiceListener (platform w2) = [O] /\
  onLocationUpdate (service w2) = Some 7%nat.
Proof.
  destruct startTracking_idempotent as [_ Htwice].
  destruct (Htwice idle_world (Some 7%nat) (Some 8%nat) eq_refl eq_refl)
    as [H1 [H2 [H3 [_ H5]]]].
  cbv zeta. split; [exact H1|]. split; [exact H2|].
  split; [exact H3 | exact H5].
Defined.

(** ** Background registration *)

(** A background registration that throws has registered nothing. *)
Lemma registerBackground_throw_frame (w : World) :
  threw (result registerBackground w) = true ->
  locationTasks (platform (exec registerBackground w)) =
  locationTasks (platform w).
Proof.
  open_world w.
  cbv [exec result registerBackground bind platform_call
       Location.startLocationUpdatesAsync TaskManager.isTaskRegisteredAsync
       console_log modify ret platform faults fst snd set_platform set_faults
       set_locationTasks set_console locationTasks].
  next_faults faults0 constr:(2%nat);
    repeat match goal with
      | |- context [task_running ?n ?p] => destruct (task_running n p)
      end;
    cbv [threw negb fst snd platform locationTasks]; intros H;
    solve [reflexivity | discriminate H].
Qed.

(** C6. When the platform opens the foreground watch and the background
    registration that follows throws (at the query of the task manager or at
    the registration itself, whatever the error), [startTracking] returns
    [true] with [isTracking] set and the watch open, and the platform's
    background location tasks are those of before the call: none has been
    registered, and none is running if none was. *)
Theorem startTracking_background_failure :
  forall (w : World) (cb : option Callback),
    isTracking (service w) = false ->
    result (openForeground cb) w = Normal tt ->
    threw (result registerBackground (exec (openForeground cb) w)) = true ->
    let w' := exec (startTracking cb) w in
    result (startTracking cb) w = Normal true /\
    isTracking (service w') = true /\
    locationSubscription (service w') = Some (nextHandle (platform w)) /\
    is_open (nextHandle (platform w)) (platform w') = true /\
    locationTasks (platform w') = locationTasks (platform w) /\
    (task_running LOCATION_TRACKING (platform w) = false ->
     task_running LOCATION_TRACKING (platform w') = false).
Proof.
  intros w cb Hoff Hopened Hbg. cbv zeta.
  assert (Hnext : next_call_succeeds w = true).
  { destruct (next_call_succeeds w) eqn:Hn; [reflexivity|].
    destruct (startTracking_rejected w cb Hoff Hn) as [_ [Habs _]].
    contradiction. }
  destruct (startTracking_fresh w cb Hoff Hnext) as [Hr [Hs [Hw _]]].
  assert (Htasks : locationTasks (platform (exec (startTracking cb) w)) =
                   locationTasks (platform w)).
  { unfold exec at 1. rewrite (startTracking_runs w cb Hoff Hnext).
    cbv zeta. cbn [snd].
    change (platform (set_service ?s ?x)) with (platform x).
    remember (exec (openForeground cb) w) as w1 eqn:Hw1.
    destruct (result registerBackground w1) as [[]|e] eqn:He;
      [discriminate Hbg|].
    unfold exec at 1, backgroundAttempt.
    rewrite (try_catch_throw _ _ _ _ He). cbn.
    rewrite registerBackground_throw_frame by (rewrite He; reflexivity).
    destruct (openForeground_returns w cb Hnext) as [_ Hopen].
    rewrite Hw1, Hopen. reflexivity. }
  split; [exact Hr|]. rewrite Hs. cbn.
  split; [reflexivity|]. split; [reflexivity|]. split; [|split].
  - unfold is_open. rewrite Hw, existsb_app. cbn.
    rewrite Nat.eqb_refl. apply orb_true_r.
  - exact Htasks.
  - unfold task_running. rewrite Htasks. auto.
Qed.

Lemma startTracking_background_failure_witness :
  let w' := exec (startTracking (Some 7%nat)) background_denied_world in
  result (startTracking (Some 7%nat)) background_denied_world = Normal true /\
  isTracking (service w') = true /\
  locationTasks (platform w') = [].
Proof.
  destruct (startTracking_background_failure background_denied_world
              (Some 7%nat) eq_refl eq_refl eq_refl)
    as [H1 [H2 [_ [_ [H5 _]]]]].
  cbv zeta. split; [exact H1|]. split; [exact H2 | exact H5].
Defined.

(** ** Deliveries *)

Lemma find_opened (ws : list Watch) (x : Watch) :
  forallb (fun y => Nat.ltb (watch_handle y) (watch_handle x)) ws = true ->
  find (fun y => Nat.eqb (watch_handle y) (watch_handle x)) (ws ++ [x])
  = Some x.
Proof.
  induction ws as [|y ws IH]; cbn.
  - intros _. rewrite Nat.eqb_refl. reflexivity.
  - intros H. apply andb_true_iff in H as [Hy Hws].
    apply Nat.ltb_lt in Hy.
    destruct (Nat.eqb_spec (watch_handle y) (watch_handle x)) as [Heq|_].
    + rewrite Heq in Hy. exfalso. exact (Nat.lt_irrefl _ Hy).
    + apply IH. exact Hws.
Qed.

(** The coordinator's watch callback when a caller's callback is stored. *)
Lemma onServicePosition_runs (w : World) (cb : Callback)
  (location : LocationObject) :
  onLocationUpdate (service w) = Some cb ->
  onServicePosition location w =
    (Normal tt,
     set_invocations (invocations w ++ [(cb, toLocationData location)])
       (set_console (console w ++ [(log, "Location updated:")])
          (set_service
             (set_currentLocation (Some (toLocationData location)) (service w))
             w))).
Proof.
  intros Hcb. unfold onServicePosition.
  rewrite bind_assign. unfold console_log, modify, bind at 1.
  rewrite bind_this.
  cbn [service set_console set_service onLocationUpdate set_currentLocation].
  rewrite Hcb. reflexivity.
Qed.

(** A delivery to a watch of the coordinator that has a callback stored. *)
Lemma deliver_to_service (w : World) (h : Handle) (o : WatchOptions)
  (cb : Callback) (location : LocationObject) :
  find (fun x => Nat.eqb (watch_handle x) h) (watches (platform w))
  = Some (mkWatch h ServiceListener o) ->
  onLocationUpdate (service w) = Some cb ->
  let w' := exec (deliver h location) w in
  result (deliver h location) w = Normal tt /\
  service w' = set_currentLocation (Some (toLocationData location)) (service w) /\
  invocations w' = (invocations w ++ [(cb, toLocationData location)])%list /\
  platform w' = platform w.
Proof.
  intros Hfind Hcb. cbv zeta.
  assert (Hrun : deliver h location w = onServicePosition location w).
  { unfold deliver, bind, gets. rewrite Hfind. reflexivity. }
  unfold result, exec.
  rewrite Hrun, (onServicePosition_runs w cb location Hcb).
  repeat split.
Qed.

(** C7. Once [startTracking(f)] has returned [true] from an idle
    coordinator, each position delivered to its watch is stored as the
    current sample and handed to [f], value for value (latitude, longitude,
    accuracy, timestamp): after two deliveries the stored sample is the
    second one and [f] has been called twice more, with the values of the
    first position and then with those of the second. *)
Theorem deliveries_reach_callback :
  forall (w : World) (f : Callback)
         (lat1 lon1 : number) (acc1 : option number) (t1 : number)
         (lat2 lon2 : number) (acc2 : option number) (t2 : number),
    isTracking (service w) = false ->
    handles_fresh (platform w) = true ->
    result (startTracking (Some f)) w = Normal true ->
    let first := mkLocationObject (mkCoords lat1 lon1 acc1) t1 in
    let second := mkLocationObject (mkCoords lat2 lon2 acc2) t2 in
    let h := nextHandle (platform w) in
    let w1 := exec (startTracking (Some f)) w in
    let w2 := exec (deliver h first) w1 in
    let w3 := exec (deliver h second) w2 in
    locationSubscription (service w1) = Some h /\
    currentLocation (service w2) = Some (mkLocationData lat1 lon1 acc1 t1) /\
    invocations w2
      = (invocations w ++ [(f, mkLocationData lat1 lon1 acc1 t1)])%list /\
    currentLocation (service w3) = Some (mkLocationData lat2 lon2 acc2 t2) /\
    invocations w3 =
      (invocations w
         ++ [(f, mkLocationData lat1 lon1 acc1 t1);
             (f, mkLocationData lat2 lon2 acc2 t2)])%list.
Proof.
  intros w f lat1 lon1 acc1 t1 lat2 lon2 acc2 t2 Hoff Hfresh Hstarted.
  cbv zeta.
  set (first := mkLocationObject (mkCoords lat1 lon1 acc1) t1).
  set (second := mkLocationObject (mkCoords lat2 lon2 acc2) t2).
  assert (Hnext : next_call_succeeds w = true).
  { destruct (next_call_succeeds w) eqn:Hn; [reflexivity|].
    destruct (startTracking_rejected w (Some f) Hoff Hn) as [Habs _].
    rewrite Habs in Hstarted. discriminate Hstarted. }
  destruct (startTracking_fresh w (Some f) Hoff Hnext)
    as [_ [Hs [Hw [_ [_ Hi]]]]].
  remember (exec (startTracking (Some f)) w) as w1 eqn:Hw1.
  set (h := nextHandle (platform w)) in *.
  assert (Hfind1 :
    find (fun x => Nat.eqb (watch_handle x) h) (watches (platform w1))
    = Some (mkWatch h ServiceListener foregroundOptions)).
  { rewrite Hw.
    apply (find_opened _ (mkWatch h ServiceListener foregroundOptions)).
    exact Hfresh. }
  assert (Hcb1 : onLocationUpdate (service w1) = Some f)
    by (rewrite Hs; reflexivity).
  destruct (deliver_to_service w1 h _ f first Hfind1 Hcb1)
    as [_ [Hs2 [Hi2 Hp2]]].
  remember (exec (deliver h first) w1) as w2 eqn:Hw2.
  assert (Hfind2 :
    find (fun x => Nat.eqb (watch_handle x) h) (watches (platform w2))
    = Some (mkWatch h ServiceListener foregroundOptions))
    by (rewrite Hp2; exact Hfind1).
  assert (Hcb2 : onLocationUpdate (service w2) = Some f)
    by (rewrite Hs2; exact Hcb1).
  destruct (deliver_to_service w2 h _ f second Hfind2 Hcb2)
    as [_ [Hs3 [Hi3 _]]].
  rewrite Hs3, Hi3, Hs2, Hi2, Hs, Hi, <- app_assoc.
  repeat split.
Qed.

(** The scenario of the two samples, from a fresh process: (37.0, -122.0,
    5.0, 1000) and then (37.0001, -122.0, 4.0, 11000), 37.0001 being its
    nearest binary64 value. *)
Lemma deliveries_reach_callback_witness :
  let w1 := exec (startTracking (Some 7%nat)) idle_world in
  let w2 := exec (deliver O sample_first) w1 in
  let w3 := exec (deliver O sample_second) w2 in
  currentLocation (service w3)
    = Some (mkLocationData 0x1.2800346dc5d64p+5%float (-122.0)%float
              (Some 4.0%float) 11000%float) /\
  invocations w3 =
    [(7%nat, mkLocationData 37.0%float (-122.0)%float
               (Some 5.0%float) 1000%float);
     (7%nat, mkLocationData 0x1.2800346dc5d64p+5%float (-122.0)%float
               (Some 4.0%float) 11000%float)].
Proof.
  destruct (deliveries_reach_callback idle_world 7%nat
              37.0%float (-122.0)%float (Some 5.0%float) 1000%float
              0x1.2800346dc5d64p+5%float (-122.0)%float (Some 4.0%float)
              11000%float eq_refl eq_refl eq_refl)
    as [_ [_ [_ [H4 H5]]]].
  cbv zeta. split; [exact H4 | exact H5].
Defined.

(** ** The view: what the unmount cleanup sees *)

Lemma setState_keeps_effect f : keeps effect_view (LocationTracker.setState f).
Proof.
  intro w. unfold LocationTracker.setState, modify, effect_view. cbn.
  destruct (mounted (tracker w)); reflexivity.
Qed.

Ltac view_frame :=
  unfold LocationTracker.checkPermissions, LocationTracker.onPressStart,
    LocationTracker.handleStartTracking, LocationTracker.handleStopTracking,
    LocationTracker.handleGetCurrentLocation,
    LocationTracker.onTrackerPosition, LocationTracker.toLocaleTimeString,
    LocationTracker.setIsTracking, LocationTracker.setCurrentLocation,
    LocationTracker.setHasPermission, LocationTracker.setLastUpdateTime,
    LocationTracker.setWatchSubscription, onServicePosition;
  unfold_platform;
  repeat (intros; cbv beta;
          first [ apply setState_keeps_effect
                | apply keeps_bind | apply keeps_try_catch | apply keeps_if
                | apply keeps_match_option
                | apply keeps_ret | apply keeps_throw | apply keeps_gets
                | apply keeps_modify; intros; reflexivity
                | apply keeps_platform_call; intros; reflexivity ]).

Lemma on_event_keeps_effect ev : keeps effect_view (on_event ev).
Proof.
  destruct ev as [g | h location]; cbn [on_event].
  - unfold LocationTracker.on_gesture. apply keeps_bind; [apply keeps_gets|].
    intros scope. destruct g; view_frame.
  - unfold deliver. apply keeps_bind; [apply keeps_gets|].
    intros [x|]; [destruct (watch_listener x)|]; view_frame.
Qed.

Lemma play_keeps_effect evs : forall w,
  effect_view (play evs w) = effect_view w.
Proof.
  induction evs as [|ev evs IH]; intros w; cbn [play].
  - reflexivity.
  - rewrite IH. apply on_event_keeps_effect.
Qed.

Lemma mount_effect_scope (w : World) :
  effect_view (exec LocationTracker.mount w) = TrackerState.initial.
Proof.
  unfold exec, LocationTracker.mount.
  unfold bind at 1, modify. unfold bind at 1, gets. unfold bind at 1.
  cbn [fst snd].
  match goal with |- effect_view (snd (LocationTracker.checkPermissions ?x)) = _ =>
    transitivity (effect_view x); [|reflexivity]
  end.
  assert (H : keeps effect_view LocationTracker.checkPermissions) by view_frame.
  apply H.
Qed.

(** Whatever happens between mounting and unmounting, the cleanup finds no
    subscription in the constants it closed over, so unmounting leaves the
    open watches of the platform as they are. *)
Lemma unmount_releases_nothing (evs : list ViewEvent) (w : World) :
  let w1 := play evs (exec LocationTracker.mount w) in
  result LocationTracker.unmount w1 = Normal tt /\
  platform (exec LocationTracker.unmount w1) = platform w1.
Proof.
  cbv zeta.
  pose proof (play_keeps_effect evs (exec LocationTracker.mount w)) as Hscope.
  rewrite mount_effect_scope in Hscope.
  remember (play evs (exec LocationTracker.mount w)) as w1 eqn:Hw1.
  unfold effect_view in Hscope.
  unfold result, exec, LocationTracker.unmount, bind at 1, gets.
  unfold bind at 2, gets.
  cbn [fst snd]. rewrite Hscope. cbn. split; reflexivity.
Qed.

(** C2 fails on the code. The view below is TRACKING and holds the
    subscription of an open watch; unmounting it runs the cleanup of the
    mount effect, which reads the [watchSubscription] of the first render
    ([null]) and removes nothing: the watch is still open afterwards. *)
Theorem unmount_leaves_watch_open :
  let w := tracking_view in
  let w' := exec LocationTracker.unmount w in
  TrackerState.isTracking (hooks (tracker w)) = true /\
  TrackerState.watchSubscription (hooks (tracker w)) = Some O /\
  is_open O (platform w) = true /\
  result LocationTracker.unmount w = Normal tt /\
  mounted (tracker w') = false /\
  is_open O (platform w') = true /\
  handles_of TrackerListener (platform w') = [O].
Proof. cbv zeta. repeat split. Qed.

(** The view's own stop handler does release the subscription. *)
Lemma stop_releases_watch :
  let w' := exec (on_event (Gesture LocationTracker.PressStopTracking))
              tracking_view in
  is_open O (platform w') = false /\
  TrackerState.isTracking (hooks (tracker w')) = false /\
  TrackerState.watchSubscription (hooks (tracker w')) = None.
Proof. cbv zeta. repeat split. Qed.

(** ** The display formatters *)

Lemma example_latitude_nearest :
  nearest_binary64 example_latitude 37123456789 (10 ^ 9) = true.
Proof. vm_compute. reflexivity. Qed.

Lemma sample_second_latitude_nearest :
  nearest_binary64 (coords_latitude (coords sample_second)) 370001 (10 ^ 4)
  = true.
Proof. vm_compute. reflexivity. Qed.

(** C9 on the code. A latitude of 37.123456789 is rendered with six
    decimals, as "37.123457", and an absent accuracy as "Unknown"; an
    accuracy of 5.0 is rendered as the source's prefix followed by "5.0m",
    and that prefix is not the plus-minus sign alone: in the source file it
    is the two characters U+00C2 U+00B1 (bytes C3 82 C2 B1), so the result
    differs from "±5.0m". *)
Theorem formatters_render : forall Number_toString : number -> string,
  Format.formatCoordinate Number_toString example_latitude None
    = Normal "37.123457" /\
  Format.formatAccuracy Number_toString None = Normal "Unknown" /\
  Format.formatAccuracy Number_toString (Some 5.0%float)
    = Normal (Format.accuracy_prefix ++ "5.0m") /\
  list_byte_of_string Format.accuracy_prefix
    = [Byte.xc3; Byte.x82; Byte.xc2; Byte.xb1] /\
  list_byte_of_string "±" = [Byte.xc2; Byte.xb1] /\
  Format.formatAccuracy Number_toString (Some 5.0%float) <> Normal "±5.0m".
Proof.
  intros ts. repeat split; try (vm_compute; reflexivity).
  vm_compute. intros H. discriminate H.
Qed.

(** *** Six decimals, in general *)

Lemma length_append (s1 s2 : string) :
  String.length (s1 ++ s2) = (String.length s1 + String.length s2)%nat.
Proof. induction s1 as [|c s1 IH]; cbn; [reflexivity | now rewrite IH]. Qed.

Lemma length_zeros (k : nat) : String.length (zeros k) = k.
Proof. induction k as [|k IH]; cbn; [reflexivity | now rewrite IH]. Qed.

Lemma length_substring (s : string) : forall n m : nat,
  (n + m <= String.length s)%nat -> String.length (substring n m s) = m.
Proof.
  induction s as [|c s IH]; intros n m H; cbn in H.
  - destruct n, m; cbn in *; try lia; reflexivity.
  - destruct n as [|n]; cbn.
    + destruct m as [|m]; cbn; [reflexivity|]. rewrite IH; [reflexivity | lia].
    + apply IH. lia.
Qed.

Lemma append_assoc (s1 s2 s3 : string) : (s1 ++ s2) ++ s3 = s1 ++ s2 ++ s3.
Proof. induction s1 as [|c s1 IH]; cbn; [reflexivity | now rewrite IH]. Qed.

Lemma place_point_decimals (n : Z) (f : nat) :
  (0 < f)%nat ->
  exists a b, place_point n f = a ++ "." ++ b /\ String.length b = f.
Proof.
  intros Hf. unfold place_point. destruct f as [|f']; [lia|].
  set (f := S f') in *. cbv zeta.
  do 2 eexists. split; [reflexivity|].
  apply length_substring.
  destruct (Nat.leb_spec (String.length (digits n)) f) as [Hle|Hgt].
  - rewrite length_append, length_zeros. lia.
  - lia.
Qed.

(** Every positional coordinate is rendered with exactly six characters
    after the point. *)
Lemma formatCoordinate_six_decimals (Number_toString : number -> string)
  (value : number) :
  positional value = true ->
  exists a b,
    Format.formatCoordinate Number_toString value None
      = Normal (a ++ "." ++ b) /\
    String.length b = 6%nat.
Proof.
  unfold positional, Format.formatCoordinate, Number_prototype_toFixed.
  change (ToIntegerOrInfinity 6%float) with (Finite 6).
  unfold toFixed. cbn [orb Z.ltb Z.compare].
  change (Z.to_nat 6) with 6%nat.
  destruct (Prim2SF value) as [s|s| |s m e]; try discriminate.
  - intros _. destruct (place_point_decimals 0 6) as [a [b [H1 H2]]]; [lia|].
    exists a, b. rewrite H1. split; [reflexivity | exact H2].
  - intros Hsmall. apply negb_true_iff in Hsmall. rewrite Hsmall.
    destruct (place_point_decimals (nearest_scaled m e 6) 6)
      as [a [b [H1 H2]]]; [lia|].
    exists ((if s then "-" else "") ++ a), b. rewrite H1, append_assoc.
    split; [reflexivity | exact H2].
Qed.

(** * Further properties of the coordinator *)

Lemma try_catch_total {A} (body : M A) (handler : Error -> M A) (w : World) :
  (forall e w', threw (fst (handler e w')) = false) ->
  threw (result (try_catch body handler) w) = false.
Proof.
  intros Hh. unfold result, try_catch.
  destruct (body w) as [[a|e] w']; [reflexivity | apply Hh].
Qed.

(** X1. None of the coordinator's asynchronous methods lets an exception
    out, whatever the state and whatever the platform does. *)
Theorem service_methods_never_throw :
  forall (w : World) (cb : option Callback),
    threw (result (startTracking cb) w) = false /\
    threw (result stopTracking w) = false /\
    threw (result getCurrentLocation w) = false /\
    threw (result requestPermissions w) = false.
Proof.
  intros w cb. repeat split.
  - unfold result, startTracking. rewrite bind_this.
    destruct (isTracking (service w)); [reflexivity|].
    apply try_catch_total. reflexivity.
  - unfold result, stopTracking. rewrite bind_this.
    destruct (isTracking (service w)); cbn [negb]; [|reflexivity].
    apply try_catch_total. reflexivity.
  - apply try_catch_total. reflexivity.
  - apply try_catch_total. reflexivity.
Qed.

(** X2. When the platform rejects the foreground watch, [startTracking]
    returns [false] and the coordinator stays idle with no watch opened and
    no background task registered; the callback passed to the failed call
    has nevertheless replaced the stored one. *)
Theorem startTracking_failed_start :
  forall (w : World) (cb : option Callback),
    isTracking (service w) = false ->
    next_call_succeeds w = false ->
    let w' := exec (startTracking cb) w in
    result (startTracking cb) w = Normal false /\
    service w' = set_onLocationUpdate cb (service w) /\
    watches (platform w') = watches (platform w) /\
    locationTasks (platform w') = locationTasks (platform w).
Proof.
  intros w cb Hoff Hnext. cbv zeta. unfold next_call_succeeds in Hnext.
  destruct (faults (platform w)) as [|[e|] rest] eqn:Hf; try discriminate.
  unfold result, exec, startTracking.
  rewrite bind_this, Hoff. unfold try_catch.
  rewrite !bind_assign. unfold Location.watchPositionAsync, bind.
  rewrite !(platform_call_rejects _ _ e rest) by exact Hf.
  cbn. repeat split.
Qed.

(** The platform rejects the watch; a callback is stored from before. *)
Lemma startTracking_failed_start_witness :
  let w := with_faults [Some (PlatformError "E_LOCATION_SETTINGS")]
             (set_service (set_onLocationUpdate (Some 7%nat) newLocationService)
                idle_world) in
  result (startTracking (Some 8%nat)) w = Normal false /\
  onLocationUpdate (service (exec (startTracking (Some 8%nat)) w))
    = Some 8%nat /\
  isTracking (service (exec (startTracking (Some 8%nat)) w)) = false /\
  watches (platform (exec (startTracking (Some 8%nat)) w)) = [].
Proof.
  cbv zeta.
  destruct (startTracking_failed_start
              (with_faults [Some (PlatformError "E_LOCATION_SETTINGS")]
                 (set_service
                    (set_onLocationUpdate (Some 7%nat) newLocationService)
                    idle_world))
              (Some 8%nat) eq_refl eq_refl) as [H1 [H2 [H3 _]]].
  split; [exact H1|]. rewrite H2, H3. repeat split.
Defined.

(** A background registration that returns has the task running: it was
    running already and nothing is added, or it is added once, with the
    options of the source. *)
Lemma registerBackground_returns (w : World) :
  result registerBackground w = Normal tt ->
  let p' := platform (exec registerBackground w) in
  task_running LOCATION_TRACKING p' = true /\
  (task_running LOCATION_TRACKING (platform w) = true ->
   locationTasks p' = locationTasks (platform w)) /\
  (task_running LOCATION_TRACKING (platform w) = false ->
   locationTasks p' =
     (locationTasks (platform w) ++ [(LOCATION_TRACKING, backgroundOptions)])%list).
Proof.
  open_world w.
  cbv [exec result registerBackground bind platform_call
       Location.startLocationUpdatesAsync TaskManager.isTaskRegisteredAsync
       console_log modify ret platform faults fst snd set_platform set_faults
       set_locationTasks set_console locationTasks task_running].
  next_faults faults0 constr:(2%nat);
    match goal with
    | |- context [existsb ?f locationTasks0] =>
        destruct (existsb f locationTasks0) eqn:Hrun
    end;
    cbv [negb fst snd platform locationTasks]; intros H;
    try discriminate H;
    (split; [| split; intros Hb; solve [reflexivity | discriminate Hb]]);
    solve [ exact Hrun
          | rewrite existsb_app, Hrun; reflexivity ].
Qed.

(** The background tasks after a [startTracking] that opened the watch and
    whose background registration went through. *)
Lemma startTracking_background_tasks :
  forall (w : World) (cb : option Callback),
    isTracking (service w) = false ->
    next_call_succeeds w = true ->
    result registerBackground (exec (openForeground cb) w) = Normal tt ->
    let p' := platform (exec (startTracking cb) w) in
    task_running LOCATION_TRACKING p' = true /\
    (task_running LOCATION_TRACKING (platform w) = true ->
     locationTasks p' = locationTasks (platform w)) /\
    (task_running LOCATION_TRACKING (platform w) = false ->
     locationTasks p' =
       (locationTasks (platform w)
          ++ [(LOCATION_TRACKING, backgroundOptions)])%list).
Proof.
  intros w cb Hoff Hnext Hbg. cbv zeta.
  unfold exec at 1 2 3. rewrite (startTracking_runs w cb Hoff Hnext).
  cbv zeta. cbn [snd].
  change (platform (set_service ?s ?x)) with (platform x).
  destruct (openForeground_returns w cb Hnext) as [_ Hopen].
  remember (exec (openForeground cb) w) as w1 eqn:Hw1.
  assert (Hp1 : locationTasks (platform w1) = locationTasks (platform w))
    by (rewrite Hopen; reflexivity).
  assert (Hrun : exec backgroundAttempt w1 = exec registerBackground w1).
  { unfold exec at 1, backgroundAttempt.
    rewrite (try_catch_normal _ _ _ _ Hbg). reflexivity. }
  rewrite Hrun.
  destruct (registerBackground_returns w1 Hbg) as [H1 [H2 H3]].
  unfold task_running in *. rewrite Hp1 in H2, H3.
  split; [exact H1|]. split; assumption.
Qed.

(** X3. When [startTracking] opens the watch and its background
    registration goes through, the background task is running afterwards
    and is never registered twice: if it was running the platform's tasks
    are unchanged, otherwise exactly one task is added, under the fixed
    name and with the options written in the source. *)
Theorem startTracking_registers_background_once :
  forall (w : World) (cb : option Callback),
    isTracking (service w) = false ->
    next_call_succeeds w = true ->
    result registerBackground (exec (openForeground cb) w) = Normal tt ->
    let p' := platform (exec (startTracking cb) w) in
    task_running LOCATION_TRACKING p' = true /\
    (task_running LOCATION_TRACKING (platform w) = true ->
     locationTasks p' = locationTasks (platform w)) /\
    (task_running LOCATION_TRACKING (platform w) = false ->
     locationTasks p' =
       (locationTasks (platform w)
          ++ [(LOCATION_TRACKING, backgroundOptions)])%list).
Proof. exact startTracking_background_tasks. Qed.

(** From a fresh process, and from a restarted one in which the task of
    the earlier run is still registered. *)
Lemma startTracking_registers_background_once_witness :
  locationTasks (platform (exec (startTracking None) idle_world))
  = [(LOCATION_TRACKING, backgroundOptions)] /\
  locationTasks
    (platform (exec (startTracking None) (boot (platform tracking_world))))
  = [(LOCATION_TRACKING, backgroundOptions)].
Proof.
  split.
  - destruct (startTracking_registers_background_once idle_world None
                eq_refl eq_refl eq_refl) as [_ [_ H]].
    apply H. reflexivity.
  - destruct (startTracking_registers_background_once
                (boot (platform tracking_world)) None
                eq_refl eq_refl eq_refl) as [_ [H _]].
    apply H. reflexivity.
Defined.

Lemma existsb_filter_out {A} (f : A -> bool) (l : list A) :
  existsb f (filter (fun x => negb (f x)) l) = false.
Proof.
  induction l as [|x l IH]; cbn; [reflexivity|].
  destruct (f x) eqn:Hx; cbn; [exact IH | rewrite Hx; exact IH].
Qed.

Lemma filter_keeps_all {A} (f : A -> bool) (l : list A) :
  existsb f l = false -> filter (fun x => negb (f x)) l = l.
Proof.
  induction l as [|x l IH]; cbn; [reflexivity|].
  intros H. apply orb_false_iff in H as [Hx Hl].
  rewrite Hx. cbn. now rewrite IH.
Qed.

(** A teardown that runs to its end. *)
Lemma teardown_returns (w : World) :
  result teardown w = Normal tt ->
  let w' := exec teardown w in
  service w' = stopped (service w) /\
  watches (platform w') =
    match locationSubscription (service w) with
    | Some h =>
        filter (fun x => negb (Nat.eqb (watch_handle x) h)) (watches (platform w))
    | None => watches (platform w)
    end /\
  task_running LOCATION_TRACKING (platform w') = false /\
  locationTasks (platform w') =
    filter (fun t => negb (String.eqb (fst t) LOCATION_TRACKING))
      (locationTasks (platform w)) /\
  nextHandle (platform w') = nextHandle (platform w).
Proof.
  open_world w.
  cbv [exec result teardown bind this gets assign modify platform_call
       Location.remove Location.stopLocationUpdatesAsync
       TaskManager.isTaskRegisteredAsync console_log ret stopped
       platform service faults fst snd set_platform set_service set_faults
       set_watches set_locationTasks set_console set_isTracking
       set_onLocationUpdate set_locationSubscription
       locationSubscription isTracking onLocationUpdate currentLocation
       watches locationTasks nextHandle task_running].
  destruct locationSubscription0 as [h|];
    next_faults faults0 constr:(3%nat);
    match goal with
    | |- context [existsb ?f locationTasks0] =>
        destruct (existsb f locationTasks0) eqn:Hrun
    end;
    cbv [fst snd platform service watches locationTasks nextHandle]; intros H;
    try discriminate H;
    (split; [reflexivity | split; [reflexivity|]]);
    (split;
       [ solve [ exact Hrun
               | apply (existsb_filter_out
                          (fun t : string * TaskOptions =>
                             String.eqb (let (x, _) := t in x)
                               LOCATION_TRACKING)) ]
       | split; [|reflexivity];
         solve [ reflexivity
               | symmetry;
                 apply (filter_keeps_all
                          (fun t : string * TaskOptions =>
                             String.eqb (let (x, _) := t in x)
                               LOCATION_TRACKING));
                 exact Hrun ] ]).
Qed.

(** X4. When [stopTracking] runs its teardown to the end on a tracking
    coordinator, the tracking flag, the subscription field and the callback
    are cleared while the stored sample is kept; the watch of the stored
    subscription is no longer open on the platform and the background task
    is no longer running. *)
Theorem stopTracking_completed : forall w : World,
  isTracking (service w) = true ->
  result teardown w = Normal tt ->
  let w' := exec stopTracking w in
  service w' = stopped (service w) /\
  (forall h, locationSubscription (service w) = Some h ->
             is_open h (platform w') = false) /\
  task_running LOCATION_TRACKING (platform w') = false.
Proof.
  intros w Hon Hdone. cbv zeta.
  assert (Hstop : exec stopTracking w = exec teardown w).
  { unfold exec at 1, stopTracking. rewrite bind_this, Hon. cbn [negb].
    rewrite (try_catch_normal _ _ _ _ Hdone). reflexivity. }
  rewrite Hstop.
  destruct (teardown_returns w Hdone) as [Hs [Hw [Ht _]]].
  split; [exact Hs|]. split; [|exact Ht].
  intros h Hh. unfold is_open. rewrite Hw, Hh.
  apply (existsb_filter_out (fun x => Nat.eqb (watch_handle x) h)).
Qed.

Lemma stopTracking_completed_witness :
  let w' := exec stopTracking tracking_world in
  service w' = newLocationService /\
  is_open O (platform w') = false /\
  task_running LOCATION_TRACKING (platform w') = false.
Proof.
  destruct (stopTracking_completed tracking_world eq_refl eq_refl)
    as [H1 [H2 H3]].
  cbv zeta. split; [exact H1|]. split; [|exact H3].
  apply H2. reflexivity.
Defined.

(** *** Starting and stopping on a platform that rejects nothing *)

Lemma registerBackground_quiet (w : World) :
  faults (platform w) = [] ->
  result registerBackground w = Normal tt /\
  faults (platform (exec registerBackground w)) = [].
Proof.
  open_world w. cbn [platform faults]. intros ->.
  cbv [exec result registerBackground bind platform_call
       Location.startLocationUpdatesAsync TaskManager.isTaskRegisteredAsync
       console_log modify ret platform faults fst snd set_platform set_faults
       set_locationTasks set_console].
  match goal with
  | |- context [task_running ?n ?p] => destruct (task_running n p)
  end; split; reflexivity.
Qed.

Lemma teardown_quiet (w : World) :
  faults (platform w) = [] -> result teardown w = Normal tt.
Proof.
  open_world w. cbn [platform faults]. intros ->.
  cbv [exec result teardown bind this gets assign modify platform_call
       Location.remove Location.stopLocationUpdatesAsync
       TaskManager.isTaskRegisteredAsync console_log ret
       platform service faults fst snd set_platform set_service set_faults
       set_watches set_locationTasks set_console set_isTracking
       set_onLocationUpdate set_locationSubscription
       locationSubscription].
  destruct locationSubscription0 as [h|];
    match goal with
    | |- context [task_running ?n ?p] => destruct (task_running n p)
    end; reflexivity.
Qed.

Lemma filter_closes_last (ws : list Watch) (x : Watch) :
  forallb (fun y => Nat.ltb (watch_handle y) (watch_handle x)) ws = true ->
  filter (fun y => negb (Nat.eqb (watch_handle y) (watch_handle x))) (ws ++ [x])
  = ws.
Proof.
  intros H. rewrite filter_app. cbn. rewrite Nat.eqb_refl. cbn.
  rewrite app_nil_r.
  induction ws as [|y ws IH]; cbn in *; [reflexivity|].
  apply andb_true_iff in H as [Hy Hws]. apply Nat.ltb_lt in Hy.
  destruct (Nat.eqb_spec (watch_handle y) (watch_handle x)) as [Heq|_];
    [lia|]. cbn. now rewrite IH.
Qed.

(** X5. On a platform that rejects nothing, with fresh handles and no
    background task running, [startTracking] followed by [stopTracking]
    brings the platform back to its open watches and background tasks of
    before, and the coordinator back to idle with its stored sample kept;
    the first call returns [true]. *)
Theorem start_then_stop_restores : forall (w : World) (cb : option Callback),
  isTracking (service w) = false ->
  faults (platform w) = [] ->
  handles_fresh (platform w) = true ->
  task_running LOCATION_TRACKING (platform w) = false ->
  let w1 := exec (startTracking cb) w in
  let w2 := exec stopTracking w1 in
  result (startTracking cb) w = Normal true /\
  service w2 = stopped (service w) /\
  watches (platform w2) = watches (platform w) /\
  locationTasks (platform w2) = locationTasks (platform w).
Proof.
  intros w cb Hoff Hquiet Hfresh Htask. cbv zeta.
  assert (Hnext : next_call_succeeds w = true)
    by (unfold next_call_succeeds; rewrite Hquiet; reflexivity).
  destruct (startTracking_fresh w cb Hoff Hnext) as [Hr [Hs [Hw _]]].
  destruct (openForeground_returns w cb Hnext) as [_ Hopen].
  assert (Hq1 : faults (platform (exec (openForeground cb) w)) = [])
    by (rewrite Hopen; cbn; rewrite Hquiet; reflexivity).
  destruct (registerBackground_quiet _ Hq1) as [Hbg Hq2].
  destruct (startTracking_background_tasks w cb Hoff Hnext Hbg)
    as [_ [_ Htasks]].
  specialize (Htasks Htask).
  assert (Hq : faults (platform (exec (startTracking cb) w)) = []).
  { unfold exec at 1. rewrite (startTracking_runs w cb Hoff Hnext).
    cbv zeta. cbn [snd].
    change (platform (set_service ?s ?x)) with (platform x).
    unfold exec at 1, backgroundAttempt.
    rewrite (try_catch_normal _ _ _ _ Hbg). exact Hq2. }
  remember (exec (startTracking cb) w) as w1 eqn:Hw1.
  assert (Hon : isTracking (service w1) = true) by (rewrite Hs; reflexivity).
  pose proof (teardown_quiet w1 Hq) as Hdone.
  assert (Hstop : exec stopTracking w1 = exec teardown w1).
  { unfold exec at 1, stopTracking. rewrite bind_this, Hon. cbn [negb].
    rewrite (try_catch_normal _ _ _ _ Hdone). reflexivity. }
  rewrite Hstop.
  destruct (teardown_returns w1 Hdone) as [Hs2 [Hw2 [_ [Ht2 _]]]].
  split; [exact Hr|]. split; [|split].
  - rewrite Hs2, Hs. reflexivity.
  - rewrite Hw2, Hs, Hw. cbn [locationSubscription].
    apply (filter_closes_last (watches (platform w))
             (mkWatch (nextHandle (platform w)) ServiceListener
                foregroundOptions)).
    exact Hfresh.
  - rewrite Ht2, Htasks, filter_app. cbn. rewrite app_nil_r.
    apply (filter_keeps_all
             (fun t : string * TaskOptions => String.eqb (fst t) LOCATION_TRACKING)).
    exact Htask.
Qed.

Lemma start_then_stop_restores_witness :
  let w2 := exec stopTracking (exec (startTracking (Some 7%nat)) idle_world) in
  service w2 = newLocationService /\
  watches (platform w2) = [] /\
  locationTasks (platform w2) = [].
Proof.
  destruct (start_then_stop_restores idle_world (Some 7%nat)
              eq_refl eq_refl eq_refl eq_refl) as [_ [H1 [H2 H3]]].
  cbv zeta. split; [exact H1|]. split; [exact H2 | exact H3].
Defined.

(** The coordinator's watch callback when no callback is stored. *)
Lemma onServicePosition_silent (w : World) (location : LocationObject) :
  onLocationUpdate (service w) = None ->
  onServicePosition location w =
    (Normal tt,
     set_console (console w ++ [(log, "Location updated:")])
       (set_service
          (set_currentLocation (Some (toLocationData location)) (service w))
          w)).
Proof.
  intros Hcb. unfold onServicePosition.
  rewrite bind_assign. unfold console_log, modify, bind at 1.
  rewrite bind_this.
  cbn [service set_console set_service onLocationUpdate set_currentLocation].
  rewrite Hcb. reflexivity.
Qed.

Lemma teardown_keeps_invocations : keeps invocations teardown.
Proof. unfold teardown. unfold_platform. frame. Qed.

(** X6. The coordinator's watch callback does not look at [isTracking]:
    run after a [stopTracking] whose teardown went to the end (for a
    position that was already on its way), it still stores that position,
    value for value, as the current sample of the now idle coordinator; it
    calls no callback, the stored one having been cleared, and it does not
    throw. *)
Theorem listener_after_stop_still_stores :
  forall (w : World) (lat lon : number) (acc : option number) (t : number),
    isTracking (service w) = true ->
    result teardown w = Normal tt ->
    let location := mkLocationObject (mkCoords lat lon acc) t in
    let w1 := exec stopTracking w in
    let w2 := exec (onServicePosition location) w1 in
    result (onServicePosition location) w1 = Normal tt /\
    service w2 =
      {| isTracking := false;
         currentLocation := Some (mkLocationData lat lon acc t);
         locationSubscription := None;
         onLocationUpdate := None |} /\
    invocations w2 = invocations w /\
    platform w2 = platform w1.
Proof.
  intros w lat lon acc t Hon Hdone. cbv zeta.
  assert (Hstop : exec stopTracking w = exec teardown w).
  { unfold exec at 1, stopTracking. rewrite bind_this, Hon. cbn [negb].
    rewrite (try_catch_normal _ _ _ _ Hdone). reflexivity. }
  rewrite Hstop.
  destruct (teardown_returns w Hdone) as [Hs _].
  pose proof (teardown_keeps_invocations w) as Hi.
  fold (exec teardown w) in Hi.
  remember (exec teardown w) as w1 eqn:Hw1.
  assert (Hcb : onLocationUpdate (service w1) = None)
    by (rewrite Hs; reflexivity).
  unfold result, exec. rewrite (onServicePosition_silent w1 _ Hcb).
  cbn [fst snd]. split; [reflexivity|].
  change (service (set_console ?c (set_service ?x ?y))) with x.
  change (invocations (set_console ?c (set_service ?x ?y)))
    with (invocations y).
  change (platform (set_console ?c (set_service ?x ?y))) with (platform y).
  rewrite Hs, Hi. repeat split.
Qed.

(** A position (37.0001, -122.0, 4.0, 11000) reaches the callback after
    the coordinator of [tracking_world] has been stopped. *)
Lemma listener_after_stop_still_stores_witness :
  let w1 := exec stopTracking tracking_world in
  let w2 := exec (onServicePosition sample_second) w1 in
  isTracking (service w2) = false /\
  currentLocation (service w2)
    = Some (mkLocationData 0x1.2800346dc5d64p+5%float (-122.0)%float
              (Some 4.0%float) 11000%float) /\
  invocations w2 = [].
Proof.
  destruct (listener_after_stop_still_stores tracking_world
              0x1.2800346dc5d64p+5%float (-122.0)%float (Some 4.0%float)
              11000%float eq_refl eq_refl) as [_ [H1 [H2 _]]].
  cbv zeta in *. split; [exact (f_equal isTracking H1)|].
  split; [exact (f_equal currentLocation H1) | exact H2].
Defined.

(** X7. If the removal of the subscription goes through and the task
    manager then rejects the query, [stopTracking] returns with the watch
    closed and the subscription field cleared but [isTracking] still set;
    a following [startTracking] then returns [true] at once and opens no
    watch, so the coordinator reports tracking while nothing delivers to
    it. *)
Theorem stop_interrupted_after_removal :
  forall (w : World) (h : Handle) (e : Error) (rest : list (option Error))
         (cb : option Callback),
    isTracking (service w) = true ->
    locationSubscription (service w) = Some h ->
    faults (platform w) = None :: Some e :: rest ->
    let w1 := exec stopTracking w in
    let w2 := exec (startTracking cb) w1 in
    result stopTracking w = Normal tt /\
    isTracking (service w1) = true /\
    locationSubscription (service w1) = None /\
    is_open h (platform w1) = false /\
    result (startTracking cb) w1 = Normal true /\
    watches (platform w2) = watches (platform w1) /\
    is_open h (platform w2) = false.
Proof.
  intros w h e rest cb Hon Hsub Hfaults. cbv zeta.
  assert (Hstop : stopTracking w =
    (Normal tt,
     set_console (console w ++ [(error, "Error stopping location tracking:")])
       (set_platform
          (set_faults rest
             (set_watches
                (filter (fun x => negb (Nat.eqb (watch_handle x) h))
                   (watches (platform w)))
                (platform w)))
          (set_service (set_locationSubscription None (service w)) w)))).
  { open_world w. cbn in Hon, Hsub, Hfaults. subst. reflexivity. }
  assert (Hr : result stopTracking w = Normal tt)
    by (unfold result; rewrite Hstop; reflexivity).
  assert (Hw1 : exec stopTracking w = snd (stopTracking w)) by reflexivity.
  rewrite Hstop in Hw1. cbn [snd] in Hw1.
  remember (exec stopTracking w) as w1 eqn:Heq. clear Heq.
  assert (Hon1 : isTracking (service w1) = true)
    by (rewrite Hw1; exact Hon).
  assert (Hclosed : is_open h (platform w1) = false).
  { rewrite Hw1. unfold is_open. cbn.
    apply (existsb_filter_out (fun x => Nat.eqb (watch_handle x) h)). }
  unfold result at 2, exec. rewrite (startTracking_again w1 cb Hon1).
  cbn [fst snd].
  change (platform (set_console ?c ?x)) with (platform x).
  split; [exact Hr|]. split; [exact Hon1|].
  split; [rewrite Hw1; reflexivity|].
  repeat split; exact Hclosed.
Qed.

Lemma stop_interrupted_after_removal_witness :
  let w1 := exec stopTracking failing_teardown_world in
  isTracking (service w1) = true /\
  is_open O (platform w1) = false /\
  result (startTracking (Some 8%nat)) w1 = Normal true /\
  watches (platform (exec (startTracking (Some 8%nat)) w1)) = [].
Proof.
  destruct (stop_interrupted_after_removal failing_teardown_world O
              (PlatformError "E_TASK_SERVICE") [] (Some 8%nat)
              eq_refl eq_refl eq_refl) as [_ [H1 [_ [H2 [H3 [H4 _]]]]]].
  cbv zeta. split; [exact H1|]. split; [exact H2|]. split; [exact H3|].
  rewrite H4. reflexivity.
Defined.

(** X8. A position delivered to the coordinator's watch while no callback
    is stored (as after [startTracking()] without an argument) is stored,
    value for value, as the current sample, and nothing is called. *)
Theorem delivery_without_callback :
  forall (w : World) (h : Handle) (o : WatchOptions)
         (lat lon : number) (acc : option number) (t : number),
    find (fun x => Nat.eqb (watch_handle x) h) (watches (platform w))
    = Some (mkWatch h ServiceListener o) ->
    onLocationUpdate (service w) = None ->
    let location := mkLocationObject (mkCoords lat lon acc) t in
    let w' := exec (deliver h location) w in
    result (deliver h location) w = Normal tt /\
    service w' =
      set_currentLocation (Some (mkLocationData lat lon acc t)) (service w) /\
    invocations w' = invocations w /\
    platform w' = platform w.
Proof.
  intros w h o lat lon acc t Hfind Hcb. cbv zeta.
  set (location := mkLocationObject (mkCoords lat lon acc) t).
  assert (Hrun : deliver h location w = onServicePosition location w).
  { unfold deliver, bind, gets. rewrite Hfind. reflexivity. }
  unfold result, exec.
  rewrite Hrun, (onServicePosition_silent w location Hcb). repeat split.
Qed.

Lemma delivery_without_callback_witness :
  let w := exec (startTracking None) idle_world in
  currentLocation (service (exec (deliver O sample_second) w))
    = Some (mkLocationData 0x1.2800346dc5d64p+5%float (-122.0)%float
              (Some 4.0%float) 11000%float) /\
  invocations (exec (deliver O sample_second) w) = [].
Proof.
  destruct (delivery_without_callback (exec (startTracking None) idle_world)
              O foregroundOptions 0x1.2800346dc5d64p+5%float (-122.0)%float
              (Some 4.0%float) 11000%float eq_refl eq_refl)
    as [_ [H1 [H2 _]]].
  cbv zeta in *. split; [exact (f_equal currentLocation H1) | exact H2].
Defined.

(** X9. [getCurrentLocation] is independent of tracking: whether the fetch
    is answered or rejected, it leaves [isTracking], the subscription and
    the callback as they were and opens or closes no watch and no
    background task; it touches neither the view nor the callback log. *)
Theorem getCurrentLocation_keeps_tracking : forall w : World,
  let w' := exec getCurrentLocation w in
  tracking_parts w' = tracking_parts w /\
  tracker w' = tracker w /\
  invocations w' = invocations w.
Proof.
  assert (H1 : keeps tracking_parts getCurrentLocation)
    by (unfold getCurrentLocation; unfold_platform; frame).
  assert (H2 : keeps tracker getCurrentLocation)
    by (unfold getCurrentLocation; unfold_platform; frame).
  assert (H3 : keeps invocations getCurrentLocation)
    by (unfold getCurrentLocation; unfold_platform; frame).
  intros w. cbv zeta. split; [apply H1 | split; [apply H2 | apply H3]].
Qed.

(** X10. The background task only writes to the console: the locations the
    platform hands to it are neither stored in the coordinator nor passed to
    the caller's callback, and it cannot throw. *)
Theorem backgroundTask_only_logs :
  forall (data : option (list LocationObject)) (err : option Error)
         (w : World),
    result (backgroundTask data err) w = Normal tt /\
    app_view (exec (backgroundTask data err) w) = app_view w.
Proof.
  intros [locations|] [e|] w; split; reflexivity.
Qed.

(** X23. Restart: after a [stopTracking] whose teardown ran to the end, a
    [startTracking] for which the platform opens the watch returns [true]
    and stores a new subscription, different from the one held before the
    stop; the new watch is open and the old one stays closed. *)
Theorem restart_opens_new_watch :
  forall (w : World) (h : Handle) (cb : option Callback),
    isTracking (service w) = true ->
    locationSubscription (service w) = Some h ->
    Nat.ltb h (nextHandle (platform w)) = true ->
    result teardown w = Normal tt ->
    next_call_succeeds (exec stopTracking w) = true ->
    let w2 := exec (startTracking cb) (exec stopTracking w) in
    let h' := nextHandle (platform w) in
    result (startTracking cb) (exec stopTracking w) = Normal true /\
    isTracking (service w2) = true /\
    locationSubscription (service w2) = Some h' /\
    h' <> h /\
    is_open h' (platform w2) = true /\
    is_open h (platform w2) = false /\
    onLocationUpdate (service w2) = cb.
Proof.
  intros w h cb Hon Hsub Hlt Hdone Hnext. cbv zeta.
  assert (Hstop : exec stopTracking w = exec teardown w).
  { unfold exec at 1, stopTracking. rewrite bind_this, Hon. cbn [negb].
    rewrite (try_catch_normal _ _ _ _ Hdone). reflexivity. }
  rewrite Hstop in *.
  destruct (teardown_returns w Hdone) as [Hs [Hw [_ [_ Hn]]]].
  rewrite Hsub in Hw.
  remember (exec teardown w) as w1 eqn:Hw1.
  assert (Hoff : isTracking (service w1) = false) by (rewrite Hs; reflexivity).
  destruct (startTracking_fresh w1 cb Hoff Hnext) as [Hr [Hs2 [Hw2 _]]].
  apply Nat.ltb_lt in Hlt.
  split; [exact Hr|]. rewrite Hs2, Hn. cbn.
  split; [reflexivity|]. split; [reflexivity|].
  split; [lia|]. unfold is_open. rewrite Hw2, Hn, !existsb_app. cbn.
  rewrite Nat.eqb_refl, Hw.
  rewrite (existsb_filter_out (fun x => Nat.eqb (watch_handle x) h)).
  repeat split.
  - apply orb_true_r.
  - cbn. destruct (Nat.eqb_spec (nextHandle (platform w)) h); [lia|].
    reflexivity.
Qed.

Lemma restart_opens_new_watch_witness :
  let w2 := exec (startTracking (Some 8%nat)) (exec stopTracking tracking_world) in
  locationSubscription (service tracking_world) = Some O /\
  locationSubscription (service w2) = Some 1%nat /\
  is_open 1%nat (platform w2) = true /\
  is_open O (platform w2) = false.
Proof.
  destruct (restart_opens_new_watch tracking_world O (Some 8%nat)
              eq_refl eq_refl eq_refl eq_refl eq_refl)
    as [_ [_ [H1 [_ [H2 [H3 _]]]]]].
  cbv zeta. split; [reflexivity|]. split; [exact H1|].
  split; [exact H2 | exact H3].
Defined.

(** * Further properties of the view *)

(** Opening a world down to the cells of the view. *)
Ltac open_view w :=
  destruct w as [[? ? ? ? ? ? ? ?] [? ? ? ?] [? [? ? ? ? ?] ?] ? ? ?].

(** X11. On a mounted view [checkPermissions] never throws and always
    decides the permission cell: [true] exactly when the foreground request
    is answered ['granted'], [false] on any other answer and on a rejected
    request. The Permission Required dialog is shown for an answer other
    than ['granted'] and not for a rejected request; the other cells are
    untouched. *)
Theorem checkPermissions_outcome : forall w : World,
  mounted (tracker w) = true ->
  let w' := exec LocationTracker.checkPermissions w in
  result LocationTracker.checkPermissions w = Normal tt /\
  view_state w' =
    TrackerState.mk
      (TrackerState.isTracking (view_state w))
      (TrackerState.currentLocation (view_state w))
      (Some match foreground_request w with
            | Normal granted => true
            | _ => false
            end)
      (TrackerState.lastUpdateTime (view_state w))
      (TrackerState.watchSubscription (view_state w)) /\
  alerts w' =
    (alerts w ++ match foreground_request w with
                 | Normal granted | Throw _ => []
                 | Normal _ => ["Permission Required"]
                 end)%list.
Proof.
  intros w Hm. open_view w. cbn in Hm. subst.
  next_faults faults0 constr:(1%nat); destruct foregroundAnswer0;
    cbn; rewrite ?app_nil_r; repeat split.
Qed.

Lemma checkPermissions_outcome_witness :
  TrackerState.hasPermission
    (view_state (exec LocationTracker.mount foreground_denied_world))
  = Some false /\
  alerts (exec LocationTracker.mount foreground_denied_world)
  = ["Permission Required"] /\
  TrackerState.hasPermission
    (view_state
       (exec LocationTracker.checkPermissions
          (with_faults [Some (PlatformError "E_PERMISSIONS")]
             (exec LocationTracker.mount idle_world))))
  = Some false.
Proof.
  destruct (checkPermissions_outcome
              (with_faults [Some (PlatformError "E_PERMISSIONS")]
                 (exec LocationTracker.mount idle_world)) eq_refl)
    as [_ [H _]].
  split; [reflexivity|]. split; [reflexivity|].
  rewrite H. reflexivity.
Defined.

Lemma checkPermissions_total (w : World) :
  threw (result LocationTracker.checkPermissions w) = false.
Proof.
  unfold LocationTracker.checkPermissions. apply try_catch_total.
  intros e w'. unfold LocationTracker.setHasPermission. reflexivity.
Qed.

(** X12. Every gesture other than Stop Tracking runs a handler that cannot
    throw: its platform calls sit in a [try] block whose [catch] only logs,
    alerts and sets state. *)
Theorem guarded_gestures_never_throw :
  forall (g : LocationTracker.Gesture) (w : World),
    g <> LocationTracker.PressStopTracking ->
    threw (result (LocationTracker.on_gesture g) w) = false.
Proof.
  intros g w Hg.
  unfold LocationTracker.on_gesture, result, bind at 1, gets. cbn [fst snd].
  destruct g; try contradiction.
  - apply checkPermissions_total.
  - unfold LocationTracker.handleStartTracking.
    destruct (LocationTracker.not_permitted _);
      [apply checkPermissions_total | reflexivity].
  - unfold LocationTracker.onPressStart. apply try_catch_total. reflexivity.
  - unfold LocationTracker.handleGetCurrentLocation.
    destruct (LocationTracker.not_permitted _);
      [apply checkPermissions_total | apply try_catch_total; reflexivity].
Qed.

Lemma guarded_gestures_never_throw_witness :
  threw (result (LocationTracker.on_gesture LocationTracker.ConfirmStart)
           (with_faults [Some (PlatformError "E_LOCATION_SETTINGS")]
              (exec LocationTracker.mount idle_world))) = false.
Proof.
  apply guarded_gestures_never_throw. discriminate.
Defined.

(** X13. Stop Tracking is not guarded: when the view holds a subscription
    and the platform rejects its removal, the handler throws the error on,
    and the view stays TRACKING with the subscription held and the watch
    open. *)
Theorem stop_gesture_rejected :
  forall (w : World) (h : Handle) (e : Error) (rest : list (option Error)),
    TrackerState.watchSubscription (view_state w) = Some h ->
    faults (platform w) = Some e :: rest ->
    let w' := exec (LocationTracker.on_gesture LocationTracker.PressStopTracking) w in
    result (LocationTracker.on_gesture LocationTracker.PressStopTracking) w
      = Throw e /\
    tracker w' = tracker w /\
    watches (platform w') = watches (platform w).
Proof.
  intros w h e rest Hsub Hf. open_view w. cbn in Hsub, Hf. subst.
  repeat split.
Qed.

Lemma stop_gesture_rejected_witness :
  let w := with_faults [Some (PlatformError "E_REMOVE")] tracking_view in
  let w' := exec (LocationTracker.on_gesture LocationTracker.PressStopTracking) w in
  threw (result (LocationTracker.on_gesture LocationTracker.PressStopTracking) w)
    = true /\
  TrackerState.isTracking (view_state w') = true /\
  is_open O (platform w') = true.
Proof.
  destruct (stop_gesture_rejected
              (with_faults [Some (PlatformError "E_REMOVE")] tracking_view)
              O (PlatformError "E_REMOVE") [] eq_refl eq_refl)
    as [H1 [H2 H3]].
  cbv zeta. rewrite H1. unfold view_state, is_open. rewrite H2, H3.
  repeat split.
Defined.

(** X14. Stop Tracking on a mounted view whose removal goes through: the
    watch is closed, the view is STOPPED with no subscription and an empty
    update time, and the last location and the permission stay on
    display. *)
Theorem stop_gesture_completed :
  forall (w : World) (h : Handle),
    mounted (tracker w) = true ->
    TrackerState.watchSubscription (view_state w) = Some h ->
    next_call_succeeds w = true ->
    let w' := exec (LocationTracker.on_gesture LocationTracker.PressStopTracking) w in
    result (LocationTracker.on_gesture LocationTracker.PressStopTracking) w
      = Normal tt /\
    is_open h (platform w') = false /\
    view_state w' =
      TrackerState.mk false
        (TrackerState.currentLocation (view_state w))
        (TrackerState.hasPermission (view_state w))
        "" None.
Proof.
  intros w h Hm Hsub Hnext. open_view w.
  unfold next_call_succeeds in Hnext. cbn in Hm, Hsub, Hnext. subst.
  next_faults faults0 constr:(1%nat); try discriminate Hnext;
    cbn; (split; [reflexivity|]); (split; [|reflexivity]);
    apply (existsb_filter_out (fun x => Nat.eqb (watch_handle x) h)).
Qed.

Lemma stop_gesture_completed_witness :
  let w' := exec (LocationTracker.on_gesture LocationTracker.PressStopTracking)
              tracking_view in
  is_open O (platform w') = false /\
  TrackerState.currentLocation (view_state w')
    = Some (mkLocationData 37.0%float (-122.0)%float (Some 5.0%float)
              1000%float).
Proof.
  destruct (stop_gesture_completed tracking_view O eq_refl eq_refl eq_refl)
    as [_ [H1 H2]].
  cbv zeta. split; [exact H1|]. rewrite H2. reflexivity.
Defined.

(** X15. Confirming the start when the platform opens the watch but then
    rejects the initial one-shot fetch: the view is TRACKING and holds the
    open watch, and the handler still reports a failure to start (the Error
    dialog) and leaves the displayed location and update time as they
    were. *)
Theorem start_confirmed_fetch_rejected :
  forall (w : World) (e : Error) (rest : list (option Error)),
    mounted (tracker w) = true ->
    faults (platform w) = None :: Some e :: rest ->
    let w' := exec LocationTracker.onPressStart w in
    result LocationTracker.onPressStart w = Normal tt /\
    view_state w' =
      TrackerState.mk true
        (TrackerState.currentLocation (view_state w))
        (TrackerState.hasPermission (view_state w))
        (TrackerState.lastUpdateTime (view_state w))
        (Some (nextHandle (platform w))) /\
    is_open (nextHandle (platform w)) (platform w') = true /\
    alerts w' = (alerts w ++ ["Error"])%list.
Proof.
  intros w e rest Hm Hf. open_view w. cbn in Hm, Hf. subst.
  cbn. repeat split.
  unfold is_open. cbn. rewrite existsb_app. cbn.
  rewrite Nat.eqb_refl. apply orb_true_r.
Qed.

Lemma start_confirmed_fetch_rejected_witness :
  let w := with_faults [None; Some (PlatformError "E_LOCATION_UNAVAILABLE")]
             (exec LocationTracker.mount idle_world) in
  let w' := exec LocationTracker.onPressStart w in
  TrackerState.isTracking (view_state w') = true /\
  is_open O (platform w') = true /\
  alerts w' = ["Error"].
Proof.
  destruct (start_confirmed_fetch_rejected
              (with_faults [None; Some (PlatformError "E_LOCATION_UNAVAILABLE")]
                 (exec LocationTracker.mount idle_world))
              (PlatformError "E_LOCATION_UNAVAILABLE") [] eq_refl eq_refl)
    as [_ [H1 [H2 H3]]].
  cbv zeta. rewrite H1. split; [reflexivity|]. split; [exact H2 | exact H3].
Defined.

(** X16. Confirming the start when the platform rejects the watch: no
    watch is opened and no cell of the view changes; the failure is logged
    and the Error dialog shown. *)
Theorem start_confirmed_watch_rejected :
  forall (w : World) (e : Error) (rest : list (option Error)),
    faults (platform w) = Some e :: rest ->
    let w' := exec LocationTracker.onPressStart w in
    result LocationTracker.onPressStart w = Normal tt /\
    tracker w' = tracker w /\
    watches (platform w') = watches (platform w) /\
    alerts w' = (alerts w ++ ["Error"])%list /\
    console w' = (console w ++ [(error, "Location tracking error:")])%list.
Proof.
  intros w e rest Hf. open_view w. cbn in Hf. subst. repeat split.
Qed.

Lemma start_confirmed_watch_rejected_witness :
  let w := with_faults [Some (PlatformError "E_LOCATION_SETTINGS")]
             (exec LocationTracker.mount idle_world) in
  TrackerState.isTracking (view_state (exec LocationTracker.onPressStart w))
    = false /\
  alerts (exec LocationTracker.onPressStart w) = ["Error"].
Proof.
  destruct (start_confirmed_watch_rejected
              (with_faults [Some (PlatformError "E_LOCATION_SETTINGS")]
                 (exec LocationTracker.mount idle_world))
              (PlatformError "E_LOCATION_SETTINGS") [] eq_refl)
    as [_ [H1 [_ [H2 _]]]].
  cbv zeta. unfold view_state. rewrite H1. split; [reflexivity | exact H2].
Defined.

(** X17. A position delivered to a watch of the view puts exactly its
    values (latitude, longitude, accuracy, timestamp) on display in a
    mounted view, together with the current time, and leaves the view's
    other cells alone; once the view is unmounted the same delivery changes
    no cell. Either way the coordinator and the platform are untouched. *)
Theorem delivery_to_view :
  forall (w : World) (h : Handle) (o : WatchOptions)
         (lat lon : number) (acc : option number) (t : number),
    find (fun x => Nat.eqb (watch_handle x) h) (watches (platform w))
    = Some (mkWatch h TrackerListener o) ->
    let location := mkLocationObject (mkCoords lat lon acc) t in
    let w' := exec (deliver h location) w in
    result (deliver h location) w = Normal tt /\
    view_state w' =
      (if mounted (tracker w)
       then TrackerState.mk
              (TrackerState.isTracking (view_state w))
              (Some (mkLocationData lat lon acc t))
              (TrackerState.hasPermission (view_state w))
              (localeTime (platform w))
              (TrackerState.watchSubscription (view_state w))
       else view_state w) /\
    coordinator_side w' = coordinator_side w /\
    platform w' = platform w.
Proof.
  intros w h o lat lon acc t Hfind. cbv zeta.
  set (location := mkLocationObject (mkCoords lat lon acc) t).
  assert (Hrun : deliver h location w
                 = LocationTracker.onTrackerPosition location w).
  { unfold deliver, bind, gets. rewrite Hfind. reflexivity. }
  unfold result, exec. rewrite Hrun. clear Hrun Hfind. subst location.
  open_view w. destruct mounted0; repeat split.
Qed.

Lemma delivery_to_view_witness :
  TrackerState.currentLocation
    (view_state (exec (deliver O sample_second) tracking_view))
  = Some (mkLocationData 0x1.2800346dc5d64p+5%float (-122.0)%float
            (Some 4.0%float) 11000%float) /\
  view_state (exec (deliver O sample_second)
                (exec LocationTracker.unmount tracking_view))
  = view_state tracking_view.
Proof.
  destruct (delivery_to_view tracking_view O foregroundOptions
              0x1.2800346dc5d64p+5%float (-122.0)%float (Some 4.0%float)
              11000%float eq_refl) as [_ [H1 _]].
  destruct (delivery_to_view (exec LocationTracker.unmount tracking_view) O
              foregroundOptions
              0x1.2800346dc5d64p+5%float (-122.0)%float (Some 4.0%float)
              11000%float eq_refl) as [_ [H2 _]].
  cbv zeta in *.
  split; [exact (f_equal TrackerState.currentLocation H1) | exact H2].
Defined.

(** *** An invariant of the mounted view *)

Ltac close_consistent H :=
  unfold view_consistent, view_state, is_open in *; cbn in *;
  first [ exact H
        | reflexivity
        | rewrite existsb_app; cbn; rewrite Nat.eqb_refl;
          rewrite ?orb_true_r; reflexivity ].

Lemma gesture_keeps_consistent (g : LocationTracker.Gesture) (w : World) :
  mounted (tracker w) = true ->
  view_consistent w = true ->
  let w' := exec (LocationTracker.on_gesture g) w in
  mounted (tracker w') = true /\ view_consistent w' = true.
Proof.
  intros Hm H. open_view w. cbn in Hm. subst. cbv zeta.
  destruct g.
  - next_faults faults0 constr:(1%nat); destruct foregroundAnswer0;
      (split; [reflexivity | close_consistent H]).
  - destruct hasPermission as [[|]|];
      next_faults faults0 constr:(1%nat); destruct foregroundAnswer0;
      (split; [reflexivity | close_consistent H]).
  - next_faults faults0 constr:(2%nat);
      (split; [reflexivity | close_consistent H]).
  - destruct watchSubscription as [h|];
      next_faults faults0 constr:(1%nat);
      (split; [reflexivity | close_consistent H]).
  - destruct hasPermission as [[|]|];
      next_faults faults0 constr:(1%nat); destruct foregroundAnswer0;
      (split; [reflexivity | close_consistent H]).
Qed.

Lemma delivery_keeps_consistent (h : Handle) (location : LocationObject)
  (w : World) :
  mounted (tracker w) = true ->
  view_consistent w = true ->
  let w' := exec (deliver h location) w in
  mounted (tracker w') = true /\ view_consistent w' = true.
Proof.
  intros Hm H. cbv zeta.
  assert (Hcases :
    deliver h location w = onServicePosition location w \/
    deliver h location w = LocationTracker.onTrackerPosition location w \/
    deliver h location w = (Normal tt, w)).
  { unfold deliver, bind, gets. cbn [fst snd].
    destruct (find _ _) as [x|]; [destruct (watch_listener x)|]; auto. }
  unfold exec. destruct Hcases as [-> | [-> | ->]].
  - open_view w. cbn in Hm. subst.
    destruct onLocationUpdate0; (split; [reflexivity | close_consistent H]).
  - open_view w. cbn in Hm. subst.
    split; [reflexivity | close_consistent H].
  - split; assumption.
Qed.

Lemma play_keeps_consistent (evs : list ViewEvent) : forall w : World,
  mounted (tracker w) = true ->
  view_consistent w = true ->
  mounted (tracker (play evs w)) = true /\ view_consistent (play evs w) = true.
Proof.
  induction evs as [|ev evs IH]; intros w Hm H; cbn [play].
  - split; assumption.
  - destruct ev as [g | h location]; cbn [on_event].
    + destruct (gesture_keeps_consistent g w Hm H) as [Hm' H'].
      apply IH; assumption.
    + destruct (delivery_keeps_consistent h location w Hm H) as [Hm' H'].
      apply IH; assumption.
Qed.

(** X18. Whatever gestures and deliveries follow the mounting of the view,
    and whatever the platform answers or rejects, the view shows TRACKING
    exactly when it holds a subscription, and a subscription it holds is an
    open watch of the platform. *)
Theorem mounted_view_is_consistent :
  forall (evs : list ViewEvent) (w : World),
    let w1 := play evs (exec LocationTracker.mount w) in
    (TrackerState.isTracking (view_state w1) = true <->
     TrackerState.watchSubscription (view_state w1) <> None) /\
    (forall h, TrackerState.watchSubscription (view_state w1) = Some h ->
               is_open h (platform w1) = true).
Proof.
  intros evs w. cbv zeta.
  assert (Hmount : mounted (tracker (exec LocationTracker.mount w)) = true /\
                   view_consistent (exec LocationTracker.mount w) = true).
  { open_view w.
    next_faults faults0 constr:(1%nat); destruct foregroundAnswer0;
      split; reflexivity. }
  destruct Hmount as [Hm H].
  destruct (play_keeps_consistent evs _ Hm H) as [_ Hc].
  remember (play evs (exec LocationTracker.mount w)) as w1 eqn:Hw1.
  clear Hw1. unfold view_consistent in Hc.
  destruct (TrackerState.watchSubscription (view_state w1)) as [h|];
    destruct (TrackerState.isTracking (view_state w1)); cbn in Hc;
    try discriminate Hc.
  - split.
    + split; [intros _; discriminate | reflexivity].
    + intros h' Hh. inversion Hh; subst. exact Hc.
  - split.
    + split; [intros Hx; discriminate Hx | intros Hx; contradiction].
    + intros h' Hh. discriminate Hh.
Qed.

(** X24. Get Current Location on a mounted view that has the permission
    never throws: a fetch answered with the coordinates [lat], [lon], the
    accuracy [acc] and the timestamp [t] puts exactly these values and the
    current time on display, a rejected one shows the Error dialog and
    leaves the display as it was; the tracking cells and the open watches
    are untouched either way. *)
Theorem get_current_location_gesture :
  forall w : World,
    mounted (tracker w) = true ->
    TrackerState.hasPermission (view_state w) = Some true ->
    let run := LocationTracker.on_gesture LocationTracker.PressGetCurrentLocation in
    let w' := exec run w in
    result run w = Normal tt /\
    view_tracking_parts w' = view_tracking_parts w /\
    match position_fetch w with
    | Normal (mkLocationObject (mkCoords lat lon acc) t) =>
        TrackerState.currentLocation (view_state w')
          = Some (mkLocationData lat lon acc t) /\
        TrackerState.lastUpdateTime (view_state w') = localeTime (platform w) /\
        alerts w' = alerts w
    | Throw _ =>
        tracker w' = tracker w /\
        alerts w' = (alerts w ++ ["Error"])%list
    end.
Proof.
  intros w Hm Hp. open_view w. cbn in Hm, Hp. subst. cbv zeta.
  destruct devicePosition0 as [[lat lon acc] t].
  next_faults faults0 constr:(1%nat); cbn; repeat split.
Qed.

Lemma get_current_location_gesture_witness :
  let run := LocationTracker.on_gesture LocationTracker.PressGetCurrentLocation in
  TrackerState.currentLocation
    (view_state (exec run (exec LocationTracker.mount idle_world)))
  = Some (mkLocationData 37.0%float (-122.0)%float (Some 5.0%float)
            1000%float) /\
  alerts (exec run
            (with_faults [Some (PlatformError "E_LOCATION_UNAVAILABLE")]
               (exec LocationTracker.mount idle_world)))
  = ["Error"].
Proof.
  destruct (get_current_location_gesture
              (exec LocationTracker.mount idle_world) eq_refl eq_refl)
    as [_ [_ [H1 _]]].
  destruct (get_current_location_gesture
              (with_faults [Some (PlatformError "E_LOCATION_UNAVAILABLE")]
                 (exec LocationTracker.mount idle_world)) eq_refl eq_refl)
    as [_ [_ [_ H2]]].
  cbv zeta. split; [exact H1 | exact H2].
Defined.

Lemma setState_hasPermission_keeps_tracking p :
  keeps view_tracking_parts (LocationTracker.setHasPermission p).
Proof.
  intro w. unfold LocationTracker.setHasPermission, LocationTracker.setState,
    modify, view_tracking_parts, view_state. cbn.
  destruct (mounted (tracker w)); reflexivity.
Qed.

(** X25. Pressing Start Tracking never starts anything by itself: with or
    without the permission, and whatever the platform does, the press opens
    no watch and leaves the view's tracking cells as they were. Tracking
    only starts from the Start button of the confirmation dialog. *)
Theorem press_start_opens_nothing : forall w : World,
  view_tracking_parts
    (exec (LocationTracker.on_gesture LocationTracker.PressStartTracking) w)
  = view_tracking_parts w.
Proof.
  assert (H : keeps view_tracking_parts
                (LocationTracker.on_gesture LocationTracker.PressStartTracking)).
  { unfold LocationTracker.on_gesture, LocationTracker.handleStartTracking,
      LocationTracker.checkPermissions.
    unfold_platform.
    repeat (intros; cbv beta;
            first [ apply setState_hasPermission_keeps_tracking
                  | apply keeps_bind | apply keeps_try_catch | apply keeps_if
                  | apply keeps_ret | apply keeps_gets
                  | apply keeps_modify; intros; reflexivity
                  | apply keeps_platform_call; intros; reflexivity ]). }
  exact H.
Qed.

(** *** The view and the coordinator do not share state *)

Lemma setState_keeps_coordinator f :
  keeps coordinator_side (LocationTracker.setState f).
Proof.
  intro w. unfold LocationTracker.setState, modify, coordinator_side. cbn.
  destruct (mounted (tracker w)); reflexivity.
Qed.

Ltac coordinator_frame :=
  unfold LocationTracker.mount, LocationTracker.unmount,
    LocationTracker.cleanup,
    LocationTracker.checkPermissions, LocationTracker.onPressStart,
    LocationTracker.handleStartTracking, LocationTracker.handleStopTracking,
    LocationTracker.handleGetCurrentLocation,
    LocationTracker.toLocaleTimeString,
    LocationTracker.setIsTracking, LocationTracker.setCurrentLocation,
    LocationTracker.setHasPermission, LocationTracker.setLastUpdateTime,
    LocationTracker.setWatchSubscription;
  unfold_platform;
  repeat (intros; cbv beta;
          first [ apply setState_keeps_coordinator
                | apply keeps_bind | apply keeps_try_catch | apply keeps_if
                | apply keeps_match_option
                | apply keeps_ret | apply keeps_gets
                | apply keeps_modify; intros; reflexivity
                | apply keeps_platform_call; intros; reflexivity ]).

(** X19. The view and the coordinator are independent: mounting,
    unmounting and every gesture of the view leave the coordinator's fields
    and the callback log as they were, and every method of the coordinator
    leaves the view's cells and the dialogs shown as they were. *)
Theorem view_and_coordinator_are_independent :
  (forall g, keeps coordinator_side (LocationTracker.on_gesture g)) /\
  keeps coordinator_side LocationTracker.mount /\
  keeps coordinator_side LocationTracker.unmount /\
  (forall cb, keeps view_side (startTracking cb)) /\
  keeps view_side stopTracking /\
  keeps view_side getCurrentLocation /\
  keeps view_side requestPermissions.
Proof.
  repeat split.
  - intros g. unfold LocationTracker.on_gesture.
    apply keeps_bind; [apply keeps_gets|]. intros scope.
    destruct g; coordinator_frame.
  - coordinator_frame.
  - coordinator_frame.
  - intros cb. unfold startTracking, registerBackground.
    unfold_platform. frame.
  - unfold stopTracking, teardown. unfold_platform. frame.
  - unfold getCurrentLocation. unfold_platform. frame.
  - unfold requestPermissions. unfold_platform. frame.
Qed.

(** * Further properties of the display formatters *)

Lemma toFixed_decimals (Number_toString : number -> string) (x : number)
  (p : Z) :
  positional x = true -> 0 < p <= 100 ->
  exists a b,
    toFixed Number_toString x p = Normal (a ++ "." ++ b) /\
    Z.of_nat (String.length b) = p.
Proof.
  intros Hpos Hp. unfold positional in Hpos. unfold toFixed.
  replace ((p <? 0) || (100 <? p)) with false
    by (symmetry; apply orb_false_iff; split; apply Z.ltb_ge; lia).
  assert (Hf : (0 < Z.to_nat p)%nat) by lia.
  destruct (Prim2SF x) as [s|s| |s m e]; try discriminate.
  - destruct (place_point_decimals 0 (Z.to_nat p) Hf) as [a [b [H1 H2]]].
    exists a, b. rewrite H1, H2. split; [reflexivity | lia].
  - apply negb_true_iff in Hpos. rewrite Hpos.
    destruct (place_point_decimals (nearest_scaled m e (Z.to_nat p))
                (Z.to_nat p) Hf) as [a [b [H1 H2]]].
    exists ((if s then "-" else "") ++ a), b.
    rewrite H1, append_assoc, H2. split; [reflexivity | lia].
Qed.

Lemma whole_digit_counts (p : Z) :
  0 <= p <= 100 -> ToIntegerOrInfinity (number_of_Z p) = Finite p.
Proof.
  intros Hp.
  assert (Hall : forallb
            (fun q => match ToIntegerOrInfinity (number_of_Z q) with
                      | Finite r => r =? q
                      | _ => false
                      end) digit_counts = true)
    by (vm_compute; reflexivity).
  rewrite forallb_forall in Hall.
  assert (Hin : In p digit_counts).
  { unfold digit_counts. apply in_map_iff. exists (Z.to_nat p).
    split; [lia | apply in_seq; lia]. }
  specialize (Hall p Hin).
  destruct (ToIntegerOrInfinity (number_of_Z p)) as [r| |];
    try discriminate Hall.
  apply Z.eqb_eq in Hall. now subst.
Qed.

(** X20. [formatCoordinate] renders a finite value below [1e21] in
    magnitude with exactly as many characters after the point as the
    integer part of [precision], when that is from 1 to 100: so with [p]
    of them for every whole number [p] from 1 to 100, and with six when
    the precision is left out. *)
Theorem formatCoordinate_decimals :
  forall (Number_toString : number -> string) (value : number),
    positional value = true ->
    (forall (precision : number) (f : Z),
       ToIntegerOrInfinity precision = Finite f -> 0 < f <= 100 ->
       exists a b,
         Format.formatCoordinate Number_toString value (Some precision)
           = Normal (a ++ "." ++ b) /\
         Z.of_nat (String.length b) = f) /\
    (forall p : Z, 0 < p <= 100 ->
       exists a b,
         Format.formatCoordinate Number_toString value (Some (number_of_Z p))
           = Normal (a ++ "." ++ b) /\
         Z.of_nat (String.length b) = p) /\
    (exists a b,
       Format.formatCoordinate Number_toString value None
         = Normal (a ++ "." ++ b) /\
       Z.of_nat (String.length b) = 6).
Proof.
  intros ts value Hpos.
  assert (Hgen : forall (precision : number) (f : Z),
            ToIntegerOrInfinity precision = Finite f -> 0 < f <= 100 ->
            exists a b,
              Format.formatCoordinate ts value (Some precision)
                = Normal (a ++ "." ++ b) /\
              Z.of_nat (String.length b) = f).
  { intros precision f Hf Hrange.
    unfold Format.formatCoordinate, Number_prototype_toFixed. rewrite Hf.
    apply toFixed_decimals; assumption. }
  split; [exact Hgen|]. split.
  - intros p Hp. apply Hgen; [apply whole_digit_counts; lia | exact Hp].
  - unfold Format.formatCoordinate, Number_prototype_toFixed.
    change (ToIntegerOrInfinity 6%float) with (Finite 6).
    apply toFixed_decimals; [exact Hpos | lia].
Qed.

(** A longitude of -122 with the default precision, with the precision 2
    and with the precision 2.9, which counts as 2. *)
Lemma formatCoordinate_decimals_witness :
  Format.formatCoordinate (fun _ => "") (-122.0)%float None
    = Normal "-122.000000" /\
  Format.formatCoordinate (fun _ => "") (-122.0)%float (Some 2.0%float)
    = Normal "-122.00" /\
  exists a b,
    Format.formatCoordinate (fun _ => "") (-122.0)%float
      (Some 0x1.7333333333333p+1%float)
      = Normal (a ++ "." ++ b) /\
    Z.of_nat (String.length b) = 2.
Proof.
  destruct (formatCoordinate_decimals (fun _ => "") (-122.0)%float eq_refl)
    as [Hgen _].
  split; [vm_compute; reflexivity|]. split; [vm_compute; reflexivity|].
  apply Hgen; [vm_compute; reflexivity | lia].
Defined.

(** X21. [formatAccuracy] renders a present accuracy, finite and below
    [1e21] in magnitude, as the source's prefix, the digits with exactly one
    character after the point, and the letter m. *)
Theorem formatAccuracy_shape :
  forall (Number_toString : number -> string) (a : number),
    positional a = true ->
    exists d c,
      Format.formatAccuracy Number_toString (Some a)
        = Normal (Format.accuracy_prefix ++ (d ++ "." ++ c) ++ "m") /\
      String.length c = 1%nat.
Proof.
  intros ts a Hpos. unfold Format.formatAccuracy.
  destruct (toFixed_decimals ts a 1 Hpos) as [d [c [H1 H2]]]; [lia|].
  exists d, c. rewrite H1. split; [reflexivity | lia].
Qed.

Lemma formatAccuracy_shape_witness :
  exists d c,
    Format.formatAccuracy (fun _ => "") (Some 4.0%float)
      = Normal (Format.accuracy_prefix ++ (d ++ "." ++ c) ++ "m") /\
    String.length c = 1%nat.
Proof.
  apply (formatAccuracy_shape (fun _ => "") 4.0%float).
  vm_compute. reflexivity.
Defined.

(** X22. [formatCoordinate] throws (the [RangeError] of [toFixed]) exactly
    when the integer part of the precision it is given, [NaN] counting as
    0, is below 0 or above 100 or infinite, whatever the value: so -1, 101
    and [Infinity] throw while -0.5, 100.5 and [NaN] do not. With the
    default precision, and in [formatAccuracy], nothing is ever thrown, not
    even for [NaN], the infinities or a missing accuracy. *)
Theorem formatters_throw_only_out_of_range :
  forall (Number_toString : number -> string) (value : number),
    (forall precision : number,
       Format.formatCoordinate Number_toString value (Some precision)
         = Throw RangeError <->
       match ToIntegerOrInfinity precision with
       | Finite f => f < 0 \/ 100 < f
       | PlusInfinity | MinusInfinity => True
       end) /\
    (forall precision : number,
       threw (Format.formatCoordinate Number_toString value (Some precision))
       = match ToIntegerOrInfinity precision with
         | Finite f => (f <? 0) || (100 <? f)
         | PlusInfinity | MinusInfinity => true
         end) /\
    threw (Format.formatCoordinate Number_toString value None) = false /\
    (forall accuracy : option number,
       threw (Format.formatAccuracy Number_toString accuracy) = false).
Proof.
  intros ts value.
  assert (Hin : forall x p, 0 <= p <= 100 -> threw (toFixed ts x p) = false).
  { intros x p Hp. unfold toFixed.
    replace ((p <? 0) || (100 <? p)) with false
      by (symmetry; apply orb_false_iff; split; apply Z.ltb_ge; lia).
    destruct (Prim2SF x) as [s|[|]| |s m e]; try reflexivity.
    cbv zeta. destruct (at_least_1e21 m e); reflexivity. }
  assert (Hout : forall x p, p < 0 \/ 100 < p ->
                             toFixed ts x p = Throw RangeError).
  { intros x p Hp. unfold toFixed.
    replace ((p <? 0) || (100 <? p)) with true; [reflexivity|].
    symmetry. apply orb_true_iff.
    destruct Hp; [left; apply Z.ltb_lt | right; apply Z.ltb_lt]; lia. }
  split; [|split; [|split]].
  - intros precision.
    unfold Format.formatCoordinate, Number_prototype_toFixed.
    destruct (ToIntegerOrInfinity precision) as [f| |];
      [|split; auto|split; auto].
    split.
    + intros H.
      destruct (Z_lt_dec f 0) as [|Hge]; [left; assumption|].
      destruct (Z_lt_dec 100 f) as [|Hle]; [right; assumption|].
      pose proof (Hin value f ltac:(lia)) as Hn.
      rewrite H in Hn. discriminate Hn.
    + apply Hout.
  - intros precision.
    unfold Format.formatCoordinate, Number_prototype_toFixed.
    destruct (ToIntegerOrInfinity precision) as [f| |]; try reflexivity.
    destruct ((f <? 0) || (100 <? f)) eqn:Hb.
    + rewrite Hout; [reflexivity|].
      apply orb_true_iff in Hb as [Hb|Hb]; apply Z.ltb_lt in Hb; lia.
    + apply Hin. apply orb_false_iff in Hb as [H1 H2].
      apply Z.ltb_ge in H1, H2. lia.
  - unfold Format.formatCoordinate, Number_prototype_toFixed.
    change (ToIntegerOrInfinity 6%float) with (Finite 6).
    apply Hin. lia.
  - intros [a|]; [|reflexivity].
    unfold Format.formatAccuracy.
    pose proof (Hin a 1 ltac:(lia)) as H.
    destruct (toFixed ts a 1); [reflexivity | discriminate H].
Qed.

(** The precisions -1, 101 and [Infinity] throw; -0.5, 100.5 and [NaN] do
    not. *)
Lemma formatters_throw_only_out_of_range_witness :
  Format.formatCoordinate (fun _ => "") 37.0%float (Some (-1.0)%float)
    = Throw RangeError /\
  Format.formatCoordinate (fun _ => "") 37.0%float (Some 101.0%float)
    = Throw RangeError /\
  Format.formatCoordinate (fun _ => "") 37.0%float (Some infinity)
    = Throw RangeError /\
  threw (Format.formatCoordinate (fun _ => "") 37.0%float
           (Some (-0.5)%float)) = false /\
  threw (Format.formatCoordinate (fun _ => "") 37.0%float
           (Some 100.5%float)) = false /\
  threw (Format.formatCoordinate (fun _ => "") 37.0%float (Some nan))
    = false.
Proof.
  destruct (formatters_throw_only_out_of_range (fun _ => "") 37.0%float)
    as [Hiff [Hthrew _]].
  repeat split;
    first [ apply Hiff; vm_compute; solve [ left; reflexivity
                                          | right; reflexivity
                                          | exact I ]
          | rewrite Hthrew; vm_compute; reflexivity ].
Defined.
